(** * AttestFHE: the attestation registry contract

    A shallow embedding of the Solidity contract [AttestFHE]
    (pragma solidity ^0.8.24) and the properties of its batch ledger,
    admission gates and two-phase decryption protocol.

    Storage is a record, mappings are finite maps read with the zero value
    as default, every function is a computation in a state-and-revert monad,
    and a transaction discards the storage written by a reverting call. *)

From Stdlib Require Import ZArith List Lia Bool String.
From Stdlib.Strings Require Import Byte.
From stdpp Require Import base option gmap list list_numbers.

Import ListNotations.
Open Scope Z_scope.

(** ** Value types *)

Abbreviation address := Z (only parsing).
Abbreviation uint256 := Z (only parsing).
Abbreviation bytes32 := Z (only parsing).
Abbreviation bytes := (list byte) (only parsing).
(** [euint32] is a handle into the coprocessor, a 32-byte word. *)
Abbreviation euint32 := Z (only parsing).

Definition max_uint256 : Z := 2 ^ 256 - 1.

(** [bytes32(b)] for [b : bytes memory]: the first 32 bytes, padded on the
    right with zeros, read as one big-endian word. *)
Definition pad32 (b : bytes) : bytes :=
  firstn 32 (b ++ repeat x00 32).

Definition bytes32_of_bytes (b : bytes) : bytes32 :=
  fold_left (fun acc x => acc * 256 + Z.of_N (Byte.to_N x)) (pad32 b) 0.

(** ** Storage layout *)

Record Batch := mkBatch {
  id : uint256;
  active : bool;
  createdAt : uint256;
  closedAt : uint256
}.

Record DecryptionContext := mkDecryptionContext {
  batchId : uint256;
  stateHash : bytes32;
  processed : bool
}.

Definition zeroBatch : Batch := mkBatch 0 false 0 0.
Definition zeroContext : DecryptionContext := mkDecryptionContext 0 0 false.

Inductive Event :=
| OwnershipTransferred (previousOwner newOwner : address)
| ProviderAdded (provider : address)
| ProviderRemoved (provider : address)
| Paused (account : address)
| Unpaused (account : address)
| CooldownSecondsUpdated (oldCooldown newCooldown : uint256)
| BatchOpened (batch : uint256) (timestamp : uint256)
| BatchClosed (batch : uint256) (timestamp : uint256)
| AttestationSubmitted (provider : address) (batch : uint256) (encryptedData : bytes32)
| DecryptionRequested (requestId : uint256) (batch : uint256)
| DecryptionCompleted (requestId : uint256) (batch : uint256) (resultHash : bytes32).

Inductive Error :=
| NotOwner
| NotProvider
| PausedError
| CooldownActive
| BatchNotActive
| InvalidBatch
| ReplayAttempt
| StateMismatch
| DecryptionFailed
| ErrorString (reason : string)
| Panic (code : Z).

Record State := mkState {
  owner : address;
  isProvider : gmap Z bool;
  paused : bool;
  cooldownSeconds : uint256;
  lastSubmissionTime : gmap Z Z;
  lastDecryptionRequestTime : gmap Z Z;
  currentBatchId : uint256;
  batches : gmap Z Batch;
  decryptionContexts : gmap Z DecryptionContext;
  events : list Event
}.

(** Storage before the constructor runs: every slot is zero. *)
Definition zeroState : State :=
  mkState 0 ∅ false 0 ∅ ∅ 0 ∅ ∅ [].

(** Reads of a mapping give the zero value at a key never written. *)
Definition isProviderAt (s : State) (a : address) : bool :=
  default false (isProvider s !! a).
Definition lastSubmissionTimeAt (s : State) (a : address) : uint256 :=
  default 0 (lastSubmissionTime s !! a).
Definition lastDecryptionRequestTimeAt (s : State) (a : address) : uint256 :=
  default 0 (lastDecryptionRequestTime s !! a).
Definition batchAt (s : State) (i : uint256) : Batch :=
  default zeroBatch (batches s !! i).
Definition contextAt (s : State) (r : uint256) : DecryptionContext :=
  default zeroContext (decryptionContexts s !! r).

(** Writes of one storage variable. *)
Definition set_owner (v : address) (s : State) : State :=
  mkState v (isProvider s) (paused s) (cooldownSeconds s) (lastSubmissionTime s)
    (lastDecryptionRequestTime s) (currentBatchId s) (batches s)
    (decryptionContexts s) (events s).
Definition set_isProvider (a : address) (v : bool) (s : State) : State :=
  mkState (owner s) (<[a := v]> (isProvider s)) (paused s) (cooldownSeconds s)
    (lastSubmissionTime s) (lastDecryptionRequestTime s) (currentBatchId s)
    (batches s) (decryptionContexts s) (events s).
Definition set_paused (v : bool) (s : State) : State :=
  mkState (owner s) (isProvider s) v (cooldownSeconds s) (lastSubmissionTime s)
    (lastDecryptionRequestTime s) (currentBatchId s) (batches s)
    (decryptionContexts s) (events s).
Definition set_cooldownSeconds (v : uint256) (s : State) : State :=
  mkState (owner s) (isProvider s) (paused s) v (lastSubmissionTime s)
    (lastDecryptionRequestTime s) (currentBatchId s) (batches s)
    (decryptionContexts s) (events s).
Definition set_lastSubmissionTime (a : address) (v : uint256) (s : State) : State :=
  mkState (owner s) (isProvider s) (paused s) (cooldownSeconds s)
    (<[a := v]> (lastSubmissionTime s)) (lastDecryptionRequestTime s)
    (currentBatchId s) (batches s) (decryptionContexts s) (events s).
Definition set_lastDecryptionRequestTime (a : address) (v : uint256) (s : State) : State :=
  mkState (owner s) (isProvider s) (paused s) (cooldownSeconds s)
    (lastSubmissionTime s) (<[a := v]> (lastDecryptionRequestTime s))
    (currentBatchId s) (batches s) (decryptionContexts s) (events s).
Definition set_currentBatchId (v : uint256) (s : State) : State :=
  mkState (owner s) (isProvider s) (paused s) (cooldownSeconds s)
    (lastSubmissionTime s) (lastDecryptionRequestTime s) v (batches s)
    (decryptionContexts s) (events s).
Definition set_batch (i : uint256) (b : Batch) (s : State) : State :=
  mkState (owner s) (isProvider s) (paused s) (cooldownSeconds s)
    (lastSubmissionTime s) (lastDecryptionRequestTime s) (currentBatchId s)
    (<[i := b]> (batches s)) (decryptionContexts s) (events s).
Definition set_context (r : uint256) (c : DecryptionContext) (s : State) : State :=
  mkState (owner s) (isProvider s) (paused s) (cooldownSeconds s)
    (lastSubmissionTime s) (lastDecryptionRequestTime s) (currentBatchId s)
    (batches s) (<[r := c]> (decryptionContexts s)) (events s).
Definition log (e : Event) (s : State) : State :=
  mkState (owner s) (isProvider s) (paused s) (cooldownSeconds s)
    (lastSubmissionTime s) (lastDecryptionRequestTime s) (currentBatchId s)
    (batches s) (decryptionContexts s) (events s ++ [e]).
(** Not a write the contract makes: the same storage with another log. *)
Definition with_events (l : list Event) (s : State) : State :=
  mkState (owner s) (isProvider s) (paused s) (cooldownSeconds s)
    (lastSubmissionTime s) (lastDecryptionRequestTime s) (currentBatchId s)
    (batches s) (decryptionContexts s) l.

(** ** The state-and-revert monad

    A computation runs on the storage and either returns or reverts; in both
    cases it hands back the storage as it left it.  What a revert does to
    that storage is decided by [transact] below. *)

Inductive Outcome (A : Type) :=
| Return (a : A)
| Revert (e : Error).
Arguments Return {A} a.
Arguments Revert {A} e.

Definition M (A : Type) : Type := State -> Outcome A * State.

Definition ret {A} (a : A) : M A := fun s => (Return a, s).
Definition revert {A} (e : Error) : M A := fun s => (Revert e, s).
Definition bind {A B} (m : M A) (k : A -> M B) : M B :=
  fun s => match m s with
           | (Return a, s') => k a s'
           | (Revert e, s') => (Revert e, s')
           end.
Definition gets {A} (f : State -> A) : M A := fun s => (Return (f s), s).
Definition modify (f : State -> State) : M unit := fun s => (Return tt, f s).
Definition emit (e : Event) : M unit := modify (log e).

Declare Scope sol_scope.
Delimit Scope sol_scope with sol.
Notation "x <- m ;; k" := (bind m (fun x => k))
  (at level 100, m at next level, right associativity) : sol_scope.
Notation "m ;; k" := (bind m (fun _ => k))
  (at level 100, right associativity) : sol_scope.
Open Scope sol_scope.

(** Checked addition of Solidity 0.8: overflow reverts with Panic(0x11). *)
Definition checked_add (a b : uint256) : M uint256 :=
  if a + b <=? max_uint256 then ret (a + b) else revert (Panic 17).

(** ** The surroundings of the contract *)

(** What is fixed once the contract is deployed and lives outside it: its
    own address, the functions of the FHE library it calls and the hashing
    built-in [keccak256(abi.encode(cts, address(this)))]. *)
Class Platform := {
  this : address;
  isInitialized : euint32 -> bool;
  toBytes32 : euint32 -> bytes32;
  keccak256_encode : list bytes32 -> address -> bytes32;
  checkSignatures : uint256 -> bytes -> bytes -> bool
}.

(** What varies from one transaction to the next. *)
Record Env := mkEnv {
  msg_sender : address;
  block_timestamp : uint256;
  (** the identifier the oracle bridge returns if asked in this transaction *)
  oracle_requestId : uint256
}.

(** ** The contract *)

Section Contract.
Context {fhe : Platform}.
Variable env : Env.

(** *** Modifiers *)

Definition onlyOwner : M unit :=
  o <- gets owner ;;
  if negb (msg_sender env =? o) then revert NotOwner else ret tt.

Definition onlyProvider : M unit :=
  p <- gets (fun s => isProviderAt s (msg_sender env)) ;;
  if negb p then revert NotProvider else ret tt.

Definition whenNotPaused : M unit :=
  p <- gets paused ;;
  if p then revert PausedError else ret tt.

Definition respectCooldown : M unit :=
  last <- gets (fun s => lastSubmissionTimeAt s (msg_sender env)) ;;
  cd <- gets cooldownSeconds ;;
  limit <- checked_add last cd ;;
  if block_timestamp env <? limit then revert CooldownActive else ret tt.

(** *** Batch ledger *)

Definition _openNewBatch : M unit :=
  cur <- gets currentBatchId ;;
  next <- checked_add cur 1 ;;
  modify (set_currentBatchId next) ;;
  cur <- gets currentBatchId ;;
  modify (set_batch cur (mkBatch cur true (block_timestamp env) 0)) ;;
  emit (BatchOpened cur (block_timestamp env)).

Definition constructor : M unit :=
  modify (set_owner (msg_sender env)) ;;
  o <- gets owner ;;
  modify (set_isProvider o true) ;;
  emit (ProviderAdded o) ;;
  modify (set_cooldownSeconds 60) ;;
  _openNewBatch.

(** *** Access registry and pause switch *)

Definition transferOwnership (newOwner : address) : M unit :=
  onlyOwner ;;
  oldOwner <- gets owner ;;
  modify (set_owner newOwner) ;;
  emit (OwnershipTransferred oldOwner newOwner).

Definition addProvider (provider : address) : M unit :=
  onlyOwner ;;
  p <- gets (fun s => isProviderAt s provider) ;;
  if negb p then
    modify (set_isProvider provider true) ;;
    emit (ProviderAdded provider)
  else ret tt.

Definition removeProvider (provider : address) : M unit :=
  onlyOwner ;;
  p <- gets (fun s => isProviderAt s provider) ;;
  if p then
    modify (set_isProvider provider false) ;;
    emit (ProviderRemoved provider)
  else ret tt.

Definition pause : M unit :=
  onlyOwner ;;
  whenNotPaused ;;
  modify (set_paused true) ;;
  emit (Paused (msg_sender env)).

Definition unpause : M unit :=
  onlyOwner ;;
  modify (set_paused false) ;;
  emit (Unpaused (msg_sender env)).

Definition setCooldownSeconds (newCooldown : uint256) : M unit :=
  onlyOwner ;;
  (if newCooldown >? 0 then ret tt
   else revert (ErrorString "Cooldown must be positive")) ;;
  oldCooldown <- gets cooldownSeconds ;;
  modify (set_cooldownSeconds newCooldown) ;;
  emit (CooldownSecondsUpdated oldCooldown newCooldown).

Definition closeCurrentBatch : M unit :=
  onlyOwner ;;
  cur <- gets currentBatchId ;;
  batch <- gets (fun s => batchAt s cur) ;;
  (if id batch =? 0 then revert InvalidBatch else ret tt) ;;
  (if negb (active batch) then revert BatchNotActive else ret tt) ;;
  modify (fun s => set_batch cur
    (mkBatch (id (batchAt s cur)) false (createdAt (batchAt s cur))
             (closedAt (batchAt s cur))) s) ;;
  modify (fun s => set_batch cur
    (mkBatch (id (batchAt s cur)) (active (batchAt s cur))
             (createdAt (batchAt s cur)) (block_timestamp env)) s) ;;
  emit (BatchClosed cur (block_timestamp env)) ;;
  _openNewBatch.

(** *** Submission *)

Definition _hashCiphertexts (cts : list bytes32) : bytes32 :=
  keccak256_encode cts this.

(** [euint32 memory dummyCiphertext; dummyCiphertext.asEuint32(0);]: the
    local is declared, the result of the call on it is dropped, and the
    local keeps the zero handle it was declared with. *)
Definition dummyCiphertext : euint32 := 0.

Definition _initIfNeeded : M unit :=
  let _ := isInitialized dummyCiphertext in ret tt.

Definition _requireInitialized (x : euint32) : M unit :=
  if negb (isInitialized x) then revert (ErrorString "FHE value not initialized")
  else ret tt.

Definition submitAttestation (encryptedData : euint32) : M unit :=
  onlyProvider ;;
  whenNotPaused ;;
  respectCooldown ;;
  _initIfNeeded ;;
  _requireInitialized encryptedData ;;
  modify (set_lastSubmissionTime (msg_sender env) (block_timestamp env)) ;;
  currentBatch <- gets (fun s => batchAt s (currentBatchId s)) ;;
  (if negb (active currentBatch) then revert BatchNotActive else ret tt) ;;
  cur <- gets currentBatchId ;;
  emit (AttestationSubmitted (msg_sender env) cur (toBytes32 encryptedData)).

(** *** Decryption coordinator *)

(** The one-element list both phases hash: the handle of a dummy
    ciphertext, not the submissions of the batch. *)
Definition placeholderCts : list bytes32 := [toBytes32 dummyCiphertext].

Definition requestBatchValidation (batch : uint256) : M unit :=
  onlyOwner ;;
  whenNotPaused ;;
  respectCooldown ;;
  cur <- gets currentBatchId ;;
  closed <- gets (fun s => closedAt (batchAt s batch)) ;;
  (if (batch =? 0) || (batch >=? cur) || (closed =? 0)
   then revert InvalidBatch else ret tt) ;;
  modify (set_lastDecryptionRequestTime (msg_sender env) (block_timestamp env)) ;;
  let cts := placeholderCts in
  let stateHash := _hashCiphertexts cts in
  let requestId := oracle_requestId env in
  modify (set_context requestId (mkDecryptionContext batch stateHash false)) ;;
  emit (DecryptionRequested requestId batch).

(** [try FHE.checkSignatures(...) { ok } catch { revert DecryptionFailed(); }]:
    the check either passes, and the [ok] block runs, or reverts, and the
    [catch] block turns that into DecryptionFailed. *)
Definition myCallback (requestId : uint256) (cleartexts proof : bytes) : M unit :=
  done <- gets (fun s => processed (contextAt s requestId)) ;;
  (if done then revert ReplayAttempt else ret tt) ;;
  let cts := placeholderCts in
  let currentHash := _hashCiphertexts cts in
  stored <- gets (fun s => stateHash (contextAt s requestId)) ;;
  (if negb (currentHash =? stored) then revert StateMismatch else ret tt) ;;
  if checkSignatures requestId cleartexts proof then
    (if negb (Z.of_nat (length cleartexts) =? 32) then revert DecryptionFailed
     else ret tt) ;;
    modify (fun s => set_context requestId
      (mkDecryptionContext (batchId (contextAt s requestId))
         (stateHash (contextAt s requestId)) true) s) ;;
    b <- gets (fun s => batchId (contextAt s requestId)) ;;
    emit (DecryptionCompleted requestId b (bytes32_of_bytes cleartexts))
  else revert DecryptionFailed.

End Contract.

(** ** Transactions *)

Inductive Call :=
| CallTransferOwnership (newOwner : address)
| CallAddProvider (provider : address)
| CallRemoveProvider (provider : address)
| CallPause
| CallUnpause
| CallSetCooldownSeconds (newCooldown : uint256)
| CallCloseCurrentBatch
| CallSubmitAttestation (encryptedData : euint32)
| CallRequestBatchValidation (batch : uint256)
| CallMyCallback (requestId : uint256) (cleartexts proof : bytes).

Inductive TxResult :=
| Success
| Failure (e : Error).

Section Transactions.
Context {fhe : Platform}.

Definition dispatch (env : Env) (c : Call) : M unit :=
  match c with
  | CallTransferOwnership a => transferOwnership env a
  | CallAddProvider a => addProvider env a
  | CallRemoveProvider a => removeProvider env a
  | CallPause => pause env
  | CallUnpause => unpause env
  | CallSetCooldownSeconds n => setCooldownSeconds env n
  | CallCloseCurrentBatch => closeCurrentBatch env
  | CallSubmitAttestation x => submitAttestation env x
  | CallRequestBatchValidation b => requestBatchValidation env b
  | CallMyCallback r c p => myCallback r c p
  end.

(** A call that returns commits the storage it wrote; a call that reverts
    leaves the storage of before the call (the EVM rolls the writes back). *)
Definition execute (m : M unit) (s : State) : TxResult * State :=
  match m s with
  | (Return _, s') => (Success, s')
  | (Revert e, _) => (Failure e, s)
  end.

Definition transact (env : Env) (c : Call) (s : State) : TxResult * State :=
  execute (dispatch env c) s.

Definition deploy (env : Env) : TxResult * State :=
  execute (constructor env) zeroState.

(** A run of transactions, whatever each one's result. *)
Definition run (txs : list (Env * Call)) (s : State) : State :=
  fold_left (fun st tx => snd (transact (fst tx) (snd tx) st)) txs s.

(** States the contract can be in: after deployment and any number of
    transactions. *)
Inductive reachable : State -> Prop :=
| reachable_deploy env s :
    deploy env = (Success, s) -> reachable s
| reachable_transact env c s :
    reachable s -> reachable (snd (transact env c s)).

End Transactions.

(** ** Vocabulary of the properties *)

Section Vocabulary.
Context {fhe : Platform}.

(** The storage right after the constructor. *)
Definition deployed (env : Env) : State :=
  mkState (msg_sender env) (<[msg_sender env := true]> ∅) false 60 ∅ ∅ 1
    (<[1 := mkBatch 1 true (block_timestamp env) 0]> ∅) ∅
    [ProviderAdded (msg_sender env); BatchOpened 1 (block_timestamp env)].

(** The cooldown gate lets a call through when the sum does not overflow
    and the window has elapsed. *)
Definition cooldownElapsed (env : Env) (s : State) : Prop :=
  lastSubmissionTimeAt s (msg_sender env) + cooldownSeconds s <= max_uint256 /\
  lastSubmissionTimeAt s (msg_sender env) + cooldownSeconds s <= block_timestamp env.

(** The gates of [submitAttestation] other than the check of the batch. *)
Definition submitGates (env : Env) (x : euint32) (s : State) : Prop :=
  isProviderAt s (msg_sender env) = true /\
  paused s = false /\
  cooldownElapsed env s /\
  isInitialized x = true.

(** The storage after a successful [submitAttestation]. *)
Definition submitted (env : Env) (x : euint32) (s : State) : State :=
  log (AttestationSubmitted (msg_sender env) (currentBatchId s) (toBytes32 x))
    (set_lastSubmissionTime (msg_sender env) (block_timestamp env) s).

(** The batch ids the contract has opened, oldest first, read off the log. *)
Definition openedIds (l : list Event) : list Z :=
  omap (fun e => match e with BatchOpened i _ => Some i | _ => None end) l.

Record batchInvariant (s : State) : Prop := {
  inv_current : 1 <= currentBatchId s <= max_uint256;
  inv_active : forall i, active (batchAt s i) = true <-> i = currentBatchId s;
  inv_ids : forall i, 1 <= i <= currentBatchId s -> id (batchAt s i) = i;
  inv_unused : forall i, ~ (1 <= i <= currentBatchId s) -> batches s !! i = None;
  inv_opened : openedIds (events s) = seqZ 1 (currentBatchId s)
}.

(** The storage after a successful [closeCurrentBatch]. *)
Definition closedAndOpened (env : Env) (s : State) : State :=
  let cur := currentBatchId s in
  let b := batchAt s cur in
  mkState (owner s) (isProvider s) (paused s) (cooldownSeconds s)
    (lastSubmissionTime s) (lastDecryptionRequestTime s) (cur + 1)
    (<[cur + 1 := mkBatch (cur + 1) true (block_timestamp env) 0]>
       (<[cur := mkBatch (id b) false (createdAt b) (block_timestamp env)]>
          (batches s)))
    (decryptionContexts s)
    (events s ++ [BatchClosed cur (block_timestamp env);
                  BatchOpened (cur + 1) (block_timestamp env)]).

(** The part of the storage only [closeCurrentBatch] touches. *)
Definition ledger (s : State) : Z * gmap Z Batch * list Z :=
  (currentBatchId s, batches s, openedIds (events s)).

(** The hash both phases of the decryption protocol compute. *)
Definition placeholderHash : bytes32 := _hashCiphertexts placeholderCts.

(** The storage after a successful [requestBatchValidation]. *)
Definition requested (env : Env) (b : uint256) (s : State) : State :=
  log (DecryptionRequested (oracle_requestId env) b)
    (set_context (oracle_requestId env)
       (mkDecryptionContext b placeholderHash false)
       (set_lastDecryptionRequestTime (msg_sender env) (block_timestamp env) s)).

(** The gates of [requestBatchValidation] that come before its check of
    the batch. *)
Definition requestGates (env : Env) (s : State) : Prop :=
  msg_sender env = owner s /\ paused s = false /\ cooldownElapsed env s.

Definition invalidBatch (s : State) (b : uint256) : Prop :=
  b = 0 \/ b >= currentBatchId s \/ closedAt (batchAt s b) = 0.

(** The storage after a successful [myCallback]. *)
Definition completed (r : uint256) (cleartexts : bytes) (s : State) : State :=
  log (DecryptionCompleted r (batchId (contextAt s r)) (bytes32_of_bytes cleartexts))
    (set_context r
       (mkDecryptionContext (batchId (contextAt s r)) (stateHash (contextAt s r)) true)
       s).

(** A transaction keeps a processed request processed, unless it is a
    validation request to which the bridge gives the same identifier. *)
Definition keepsRequest (r : uint256) (tx : Env * Call) : Prop :=
  match snd tx with
  | CallRequestBatchValidation _ => oracle_requestId (fst tx) <> r
  | _ => True
  end.

(** Every stored request carries the hash of the placeholder list. *)
Definition contextsPinned (s : State) : Prop :=
  forall r ctx, decryptionContexts s !! r = Some ctx -> stateHash ctx = placeholderHash.

(** The ordered list of ciphertext handles submitted to a batch, as the
    specification speaks of it.  The contract keeps no such list in storage;
    the submissions of a batch are those its log records for it. *)
Definition batchCiphertexts (s : State) (b : uint256) : list bytes32 :=
  omap (fun e => match e with
                 | AttestationSubmitted _ b' h => if b' =? b then Some h else None
                 | _ => None
                 end) (events s).

(** The content hash of the specification: the hash of that live list. *)
Definition liveHash (s : State) (b : uint256) : bytes32 :=
  keccak256_encode (batchCiphertexts s b) this.

End Vocabulary.

(** ** A concrete platform and scenario

    Handles are initialised when nonzero and convert to themselves, as in
    the FHE library; a proof is accepted when it is the single byte 01.  The
    hash is a stand-in for keccak256: a polynomial in the handles and the
    contract address, enough to tell apart the lists the scenarios use. *)

Definition demoHash (cts : list bytes32) (a : address) : bytes32 :=
  (fold_left (fun acc c => acc * 31 + c + 1) cts (a + 17)) mod 2 ^ 256.

Definition demoCheckSignatures (r : uint256) (cleartexts proof : bytes) : bool :=
  match proof with
  | [x01] => true
  | _ => false
  end.

Definition demoPlatform : Platform :=
  {| this := 4096;
     isInitialized := fun x => negb (x =? 0);
     toBytes32 := fun x => x;
     keccak256_encode := demoHash;
     checkSignatures := demoCheckSignatures |}.

(** Thirty-two bytes of cleartext: the word 7. *)
Definition cleartext7 : bytes := repeat x00 31 ++ [x07].

Definition alice : address := 10.
Definition bob : address := 11.
Definition requestR : uint256 := 5.

(** [who] calls at time [t]; the bridge would answer with [requestR]. *)
Definition by_ (who : address) (t : uint256) : Env := mkEnv who t requestR.

(** Alice deploys, submits handle 7 into batch 1, closes batch 1, requests
    its validation; the oracle calls back. *)
Definition sDeployed : State := snd (deploy (by_ alice 1000)).
Definition sSubmitted : State :=
  snd (transact (fhe := demoPlatform) (by_ alice 2000) (CallSubmitAttestation 7) sDeployed).
Definition sClosed : State :=
  snd (transact (fhe := demoPlatform) (by_ alice 3000) CallCloseCurrentBatch sSubmitted).
Definition sRequested : State :=
  snd (transact (fhe := demoPlatform) (by_ alice 4000) (CallRequestBatchValidation 1) sClosed).
Definition sCompleted : State :=
  snd (transact (fhe := demoPlatform) (by_ bob 5000)
         (CallMyCallback requestR cleartext7 [x01]) sRequested).

(** Alice pauses the freshly deployed contract. *)
Definition sPaused : State :=
  snd (transact (fhe := demoPlatform) (by_ alice 1500) CallPause sDeployed).

(** A storage whose current batch is marked closed; no run of the contract
    produces it. *)
Definition sStale : State :=
  set_batch 1 (mkBatch 1 false 1000 1500) sDeployed.

(** Alice deploys, closes batch 1 and submits into batch 2. *)
Definition sClosedFirst : State :=
  snd (transact (fhe := demoPlatform) (by_ alice 2000) CallCloseCurrentBatch sDeployed).
Definition sSubmittedLate : State :=
  snd (transact (fhe := demoPlatform) (by_ alice 3000) (CallSubmitAttestation 7) sClosedFirst).
(** Alice deploys, closes batch 1 and requests its validation. *)
Definition sRequestedEarly : State :=
  snd (transact (fhe := demoPlatform) (by_ alice 3000) (CallRequestBatchValidation 1)
         sClosedFirst).

(** ** Vocabulary of the further properties *)

Section FurtherVocabulary.
Context {fhe : Platform}.

(** The functions that carry the [onlyOwner] modifier. *)
Definition ownerOnly (c : Call) : bool :=
  match c with
  | CallSubmitAttestation _ | CallMyCallback _ _ _ => false
  | _ => true
  end.

(** What the owner configures: the owner, the providers, the pause flag and
    the cooldown. *)
Definition adminConfig (s : State) : address * gmap Z bool * bool * uint256 :=
  (owner s, isProvider s, paused s, cooldownSeconds s).

(** The batch ids the contract has closed, oldest first, read off the log. *)
Definition closedIds (l : list Event) : list Z :=
  omap (fun e => match e with BatchClosed i _ => Some i | _ => None end) l.

(** The requests the contract has completed, oldest first, read off the log. *)
Definition completedIds (l : list Event) : list Z :=
  omap (fun e => match e with DecryptionCompleted r _ _ => Some r | _ => None end) l.

(** The history the ledger keeps: the current batch is not closed, every
    batch below it is inactive and was closed at the very time its successor
    was created, and the log has one BatchClosed per batch below the current
    one. *)
Record ledgerHistory (s : State) : Prop := {
  hist_current_open : closedAt (batchAt s (currentBatchId s)) = 0;
  hist_closed : forall i, 1 <= i < currentBatchId s ->
    active (batchAt s i) = false /\
    closedAt (batchAt s i) = createdAt (batchAt s (i + 1));
  hist_log : closedIds (events s) = seqZ 1 (currentBatchId s - 1)
}.

(** Every stored request names a batch below the current one whose
    [closedAt] is set. *)
Definition requestsValid (s : State) : Prop :=
  forall r ctx, decryptionContexts s !! r = Some ctx ->
    1 <= batchId ctx < currentBatchId s /\
    closedAt (batchAt s (batchId ctx)) <> 0.

(** Every submission in the log names a batch the contract has opened and
    carries the conversion of an initialised handle. *)
Definition submissionsWellFormed (s : State) : Prop :=
  forall p b h, In (AttestationSubmitted p b h) (events s) ->
    1 <= b <= currentBatchId s /\
    exists x, h = toBytes32 x /\ isInitialized x = true.

(** The bridge answers a validation request with an identifier under which
    nothing is stored yet. *)
Definition bridgeFresh (env : Env) (c : Call) (s : State) : Prop :=
  match c with
  | CallRequestBatchValidation _ => decryptionContexts s !! oracle_requestId env = None
  | _ => True
  end.

(** The states the contract reaches when the bridge never repeats an
    identifier. *)
Inductive reachableUnique : State -> Prop :=
| reachableUnique_deploy env s :
    deploy env = (Success, s) -> reachableUnique s
| reachableUnique_transact env c s :
    reachableUnique s -> bridgeFresh env c s ->
    reachableUnique (snd (transact env c s)).

(** Completed at most once: no request appears twice among the completed
    ones, and each of them is marked processed. *)
Definition completedOnce (s : State) : Prop :=
  NoDup (completedIds (events s)) /\
  forall r, In r (completedIds (events s)) -> processed (contextAt s r) = true.

End FurtherVocabulary.

(** Alice submits at 2000 and then sets the cooldown to the largest
    uint256. *)
Definition sHugeCooldown : State :=
  snd (transact (fhe := demoPlatform) (by_ alice 2500)
         (CallSetCooldownSeconds max_uint256) sSubmitted).

(** Alice makes Bob a provider right after deployment. *)
Definition sBobAdded : State :=
  snd (transact (fhe := demoPlatform) (by_ alice 1200) (CallAddProvider bob) sDeployed).

(** Alice hands the contract over to Bob right after deployment. *)
Definition sTransferred : State :=
  snd (transact (fhe := demoPlatform) (by_ alice 1200) (CallTransferOwnership bob) sDeployed).

(** ** Running the monad *)

(** Unfolds a transaction down to the conditionals of the function it runs. *)
Ltac sol_unfold :=
  unfold transact, deploy, execute, dispatch, constructor, transferOwnership,
    addProvider, removeProvider, pause, unpause, setCooldownSeconds,
    closeCurrentBatch, submitAttestation, requestBatchValidation, myCallback,
    _openNewBatch, _initIfNeeded, _requireInitialized, onlyOwner, onlyProvider,
    whenNotPaused, respectCooldown, bind, gets, emit, modify, ret, revert in *.

Ltac sol_run := sol_unfold; cbn in *.

Ltac sol_cases :=
  repeat match goal with
  | |- context [if ?b then _ else _] => destruct b eqn:?; cbn
  end.

Lemma checked_add_ok (a b : Z) (s : State) :
  a + b <= max_uint256 -> checked_add a b s = (Return (a + b), s).
Proof.
  intros H. unfold checked_add.
  destruct (Z.leb_spec (a + b) max_uint256); [reflexivity | lia].
Qed.

Lemma checked_add_overflow (a b : Z) (s : State) :
  max_uint256 < a + b -> checked_add a b s = (Revert (Panic 17), s).
Proof.
  intros H. unfold checked_add.
  destruct (Z.leb_spec (a + b) max_uint256); [lia | reflexivity].
Qed.

Lemma max_uint256_large : 2 ^ 16 - 1 <= max_uint256.
Proof.
  unfold max_uint256.
  assert (2 ^ 16 <= 2 ^ 256) by (apply Z.pow_le_mono_r; lia). lia.
Qed.

Lemma max_uint256_pos : 1 <= max_uint256.
Proof. pose proof max_uint256_large. lia. Qed.

Section Properties.
Context {fhe : Platform}.

(** *** Deployment *)

Lemma deploy_result (env : Env) : deploy env = (Success, deployed env).
Proof.
  sol_run. rewrite checked_add_ok by (pose proof max_uint256_pos; lia).
  reflexivity.
Qed.

(** *** What each gate does *)

Lemma onlyOwner_run (env : Env) (s : State) :
  onlyOwner env s =
  if msg_sender env =? owner s then (Return tt, s) else (Revert NotOwner, s).
Proof. sol_run. destruct (msg_sender env =? owner s); reflexivity. Qed.

Lemma onlyOwner_pass (env : Env) (s : State) :
  msg_sender env = owner s -> onlyOwner env s = (Return tt, s).
Proof. intros H. rewrite onlyOwner_run. rewrite <- H, Z.eqb_refl. reflexivity. Qed.

Lemma onlyProvider_run (env : Env) (s : State) :
  onlyProvider env s =
  if isProviderAt s (msg_sender env) then (Return tt, s)
  else (Revert NotProvider, s).
Proof. sol_run. destruct (isProviderAt s (msg_sender env)); reflexivity. Qed.

Lemma whenNotPaused_run (s : State) :
  whenNotPaused s = if paused s then (Revert PausedError, s) else (Return tt, s).
Proof. sol_run. destruct (paused s); reflexivity. Qed.

Lemma respectCooldown_pass (env : Env) (s : State) :
  cooldownElapsed env s -> respectCooldown env s = (Return tt, s).
Proof.
  intros [Hmax Hle]. sol_run. rewrite checked_add_ok by assumption.
  destruct (Z.ltb_spec (block_timestamp env)
              (lastSubmissionTimeAt s (msg_sender env) + cooldownSeconds s));
    [lia | reflexivity].
Qed.

(** *** Submission *)

Lemma submitAttestation_ok (env : Env) (x : euint32) (s : State) :
  submitGates env x s ->
  active (batchAt s (currentBatchId s)) = true ->
  transact env (CallSubmitAttestation x) s = (Success, submitted env x s).
Proof.
  intros (Hprov & Hpause & Hcool & Hinit) Hact.
  unfold transact, execute, dispatch, submitAttestation, bind.
  rewrite onlyProvider_run, Hprov, whenNotPaused_run, Hpause.
  rewrite respectCooldown_pass by assumption.
  sol_run. rewrite Hinit. cbn.
  unfold batchAt in *. cbn. rewrite Hact. reflexivity.
Qed.

Lemma submitAttestation_BatchNotActive (env : Env) (x : euint32) (s s' : State) :
  transact env (CallSubmitAttestation x) s = (Failure BatchNotActive, s') ->
  active (batchAt s (currentBatchId s)) = false.
Proof.
  sol_run. unfold checked_add, ret, revert.
  repeat match goal with
  | |- context [if ?b then _ else _] => destruct b eqn:?; cbn; try congruence
  end.
  all: unfold batchAt in *; cbn in *; intros _;
    match goal with H : negb _ = true |- _ => apply negb_true_iff in H; exact H end.
Qed.

(** The body of [submitAttestation] writes the caller's submission time
    before it checks the batch: when that check reverts, the storage the
    body hands back differs from the one it started on, and it is
    [execute] that discards it. *)
Lemma submitAttestation_reverts_after_write (env : Env) (x : euint32) (s : State) :
  submitGates env x s ->
  active (batchAt s (currentBatchId s)) = false ->
  submitAttestation env x s =
    (Revert BatchNotActive,
     set_lastSubmissionTime (msg_sender env) (block_timestamp env) s) /\
  transact env (CallSubmitAttestation x) s = (Failure BatchNotActive, s).
Proof.
  intros (Hprov & Hpause & Hcool & Hinit) Hact.
  unfold transact, execute, dispatch, submitAttestation, bind.
  rewrite onlyProvider_run, Hprov, whenNotPaused_run, Hpause.
  rewrite respectCooldown_pass by assumption.
  sol_run. rewrite Hinit. cbn.
  unfold batchAt in *. cbn. rewrite Hact. split; reflexivity.
Qed.

(** *** Failure leaves the storage alone *)

Lemma execute_failure (m : M unit) (s s' : State) (e : Error) :
  execute m s = (Failure e, s') -> s' = s.
Proof.
  unfold execute. destruct (m s) as [[u | e'] s'']; intros H; inversion H.
  reflexivity.
Qed.

(** *** The batch ledger *)

Lemma closeCurrentBatch_ok (env : Env) (s : State) :
  msg_sender env = owner s ->
  id (batchAt s (currentBatchId s)) <> 0 ->
  active (batchAt s (currentBatchId s)) = true ->
  currentBatchId s + 1 <= max_uint256 ->
  transact env CallCloseCurrentBatch s = (Success, closedAndOpened env s).
Proof.
  intros Hown Hid Hact Hmax.
  unfold transact, execute, dispatch, closeCurrentBatch, bind.
  rewrite onlyOwner_pass by assumption.
  sol_run.
  destruct (Z.eqb_spec (id (batchAt s (currentBatchId s))) 0); [contradiction |].
  rewrite Hact. cbn.
  rewrite checked_add_ok by assumption. cbn.
  unfold closedAndOpened, log, set_batch, set_currentBatchId, batchAt. cbn.
  rewrite !lookup_insert_eq. cbn. rewrite insert_insert_eq.
  rewrite <- app_assoc. reflexivity.
Qed.

Lemma closeCurrentBatch_closed (env : Env) (s : State) :
  msg_sender env = owner s ->
  id (batchAt s (currentBatchId s)) <> 0 ->
  active (batchAt s (currentBatchId s)) = false ->
  transact env CallCloseCurrentBatch s = (Failure BatchNotActive, s).
Proof.
  intros Hown Hid Hact.
  unfold transact, execute, dispatch, closeCurrentBatch, bind.
  rewrite onlyOwner_pass by assumption.
  sol_run.
  destruct (Z.eqb_spec (id (batchAt s (currentBatchId s))) 0); [contradiction |].
  rewrite Hact. reflexivity.
Qed.

Lemma closeCurrentBatch_cases (env : Env) (s : State) :
  (currentBatchId s + 1 <= max_uint256 /\
   transact env CallCloseCurrentBatch s = (Success, closedAndOpened env s)) \/
  (exists e, transact env CallCloseCurrentBatch s = (Failure e, s)).
Proof.
  destruct (Z.eqb_spec (msg_sender env) (owner s)) as [Hown | Hown];
  [ destruct (Z.eqb_spec (id (batchAt s (currentBatchId s))) 0) as [Hid | Hid];
    [ | destruct (active (batchAt s (currentBatchId s))) eqn:Hact;
        [ destruct (Z.leb_spec (currentBatchId s + 1) max_uint256) as [Hmax | Hmax] | ] ] | ].
  2: { left. split; [assumption | apply closeCurrentBatch_ok; assumption]. }
  3: { right. eexists. apply closeCurrentBatch_closed; assumption. }
  all: right; unfold transact, execute, dispatch, closeCurrentBatch, bind;
    rewrite onlyOwner_run.
  - rewrite Hown, Z.eqb_refl. sol_run. rewrite Hid. cbn. eexists. reflexivity.
  - rewrite Hown, Z.eqb_refl. sol_run.
    destruct (Z.eqb_spec (id (batchAt s (currentBatchId s))) 0); [contradiction |].
    rewrite Hact. cbn. rewrite checked_add_overflow by assumption.
    eexists. reflexivity.
  - destruct (Z.eqb_spec (msg_sender env) (owner s)); [contradiction |].
    eexists. reflexivity.
Qed.

Lemma ledger_frame (env : Env) (c : Call) (s : State) :
  c <> CallCloseCurrentBatch ->
  ledger (snd (transact env c s)) = ledger s.
Proof.
  intros Hc. destruct c; try contradiction; clear Hc.
  all: sol_run; unfold checked_add, ret, revert; sol_cases; try reflexivity.
  all: unfold ledger, openedIds; cbn; rewrite ?omap_app; cbn;
    rewrite ?app_nil_r; reflexivity.
Qed.

Lemma batchInvariant_ledger (s s' : State) :
  ledger s' = ledger s -> batchInvariant s -> batchInvariant s'.
Proof.
  unfold ledger. intros Heq [H1 H2 H3 H4 H5].
  injection Heq as Hcur Hbat Hev.
  split; unfold batchAt in *; rewrite ?Hcur, ?Hbat, ?Hev; assumption.
Qed.

Lemma batchInvariant_deployed (env : Env) : batchInvariant (deployed env).
Proof.
  split; cbn.
  - pose proof max_uint256_pos. lia.
  - intros i. unfold batchAt. cbn.
    destruct (decide (i = 1)) as [-> | Hne].
    + rewrite lookup_insert_eq. cbn. tauto.
    + rewrite lookup_insert_ne, lookup_empty by congruence. cbn.
      split; [discriminate | contradiction].
  - intros i Hi. assert (i = 1) as -> by lia.
    unfold batchAt. cbn. rewrite lookup_insert_eq. reflexivity.
  - intros i Hi. rewrite lookup_insert_ne, lookup_empty by lia. reflexivity.
  - reflexivity.
Qed.

Lemma batchInvariant_closedAndOpened (env : Env) (s : State) :
  currentBatchId s + 1 <= max_uint256 ->
  batchInvariant s -> batchInvariant (closedAndOpened env s).
Proof.
  intros Hmax [H1 H2 H3 H4 H5].
  split; cbn.
  - lia.
  - intros i. unfold batchAt. cbn.
    destruct (decide (i = currentBatchId s + 1)) as [-> | Hne].
    + rewrite lookup_insert_eq. cbn. tauto.
    + rewrite lookup_insert_ne by congruence.
      destruct (decide (i = currentBatchId s)) as [-> | Hne'].
      * rewrite lookup_insert_eq. cbn. split; [discriminate | lia].
      * rewrite lookup_insert_ne by congruence.
        specialize (H2 i). unfold batchAt in H2.
        split; [intros Ha; apply H2 in Ha; contradiction | contradiction].
  - intros i Hi. unfold batchAt. cbn.
    destruct (decide (i = currentBatchId s + 1)) as [-> | Hne].
    + rewrite lookup_insert_eq. reflexivity.
    + rewrite lookup_insert_ne by congruence.
      destruct (decide (i = currentBatchId s)) as [-> | Hne'].
      * rewrite lookup_insert_eq. cbn. apply H3. lia.
      * rewrite lookup_insert_ne by congruence.
        specialize (H3 i). unfold batchAt in H3. apply H3. lia.
  - intros i Hi. rewrite !lookup_insert_ne by lia. apply H4. lia.
  - unfold openedIds in *. rewrite omap_app, H5. cbn.
    rewrite (seqZ_app 1 (currentBatchId s) 1) by lia.
    replace (1 + currentBatchId s) with (currentBatchId s + 1) by lia.
    reflexivity.
Qed.

Lemma batchInvariant_transact (env : Env) (c : Call) (s : State) :
  batchInvariant s -> batchInvariant (snd (transact env c s)).
Proof.
  intros Hinv.
  destruct c;
    try (eapply batchInvariant_ledger;
         [apply ledger_frame; discriminate | assumption]).
  destruct (closeCurrentBatch_cases env s) as [[Hmax Hok] | [e Hfail]].
  - rewrite Hok. cbn. apply batchInvariant_closedAndOpened; assumption.
  - rewrite Hfail. assumption.
Qed.

Lemma reachable_batchInvariant (s : State) : reachable s -> batchInvariant s.
Proof.
  induction 1 as [env s Hdep | env c s Hreach IH].
  - rewrite deploy_result in Hdep. injection Hdep as <-.
    apply batchInvariant_deployed.
  - apply batchInvariant_transact. assumption.
Qed.

(** *** Requesting validation *)

Lemma invalidBatch_test (s : State) (b : uint256) :
  (b =? 0) || (b >=? currentBatchId s) || (closedAt (batchAt s b) =? 0) = true
  <-> invalidBatch s b.
Proof.
  unfold invalidBatch. rewrite !orb_true_iff, !Z.eqb_eq, Z.geb_le. lia.
Qed.

Lemma requestBatchValidation_run (env : Env) (b : uint256) (s : State) :
  requestGates env s ->
  transact env (CallRequestBatchValidation b) s =
  if (b =? 0) || (b >=? currentBatchId s) || (closedAt (batchAt s b) =? 0)
  then (Failure InvalidBatch, s)
  else (Success, requested env b s).
Proof.
  intros (Hown & Hpause & Hcool).
  unfold transact, execute, dispatch, requestBatchValidation, bind.
  rewrite onlyOwner_pass by assumption. rewrite whenNotPaused_run, Hpause.
  rewrite respectCooldown_pass by assumption.
  sol_run.
  destruct ((b =? 0) || (b >=? currentBatchId s) || (closedAt (batchAt s b) =? 0));
    reflexivity.
Qed.

(** *** The callback *)

Lemma myCallback_run (env : Env) (r : uint256) (cleartexts proof : bytes) (s : State) :
  transact env (CallMyCallback r cleartexts proof) s =
  if processed (contextAt s r) then (Failure ReplayAttempt, s)
  else if negb (placeholderHash =? stateHash (contextAt s r))
  then (Failure StateMismatch, s)
  else if checkSignatures r cleartexts proof
  then if negb (Z.of_nat (length cleartexts) =? 32)
       then (Failure DecryptionFailed, s)
       else (Success, completed r cleartexts s)
  else (Failure DecryptionFailed, s).
Proof.
  sol_run. unfold placeholderHash.
  destruct (processed (contextAt s r)); cbn; [reflexivity |].
  destruct (_hashCiphertexts placeholderCts =? stateHash (contextAt s r)); cbn;
    [| reflexivity].
  destruct (checkSignatures r cleartexts proof); cbn; [| reflexivity].
  destruct (Z.of_nat (length cleartexts) =? 32); cbn; [| reflexivity].
  unfold completed, log, set_context, contextAt. cbn.
  rewrite lookup_insert_eq. reflexivity.
Qed.

Lemma completed_processed (r : uint256) (cleartexts : bytes) (s : State) :
  processed (contextAt (completed r cleartexts s) r) = true.
Proof. unfold completed, contextAt. cbn. rewrite lookup_insert_eq. reflexivity. Qed.

Lemma processed_transact (env : Env) (c : Call) (r : uint256) (s : State) :
  keepsRequest r (env, c) ->
  processed (contextAt s r) = true ->
  processed (contextAt (snd (transact env c s)) r) = true.
Proof.
  intros Hkeep Hproc. destruct c; cbn in Hkeep.
  all: sol_run; unfold checked_add, ret, revert; sol_cases; try assumption.
  - unfold contextAt in *. cbn. rewrite lookup_insert_ne by assumption. assumption.
  - unfold contextAt in *. cbn.
    destruct (decide (requestId = r)) as [-> | Hne].
    + rewrite lookup_insert_eq. reflexivity.
    + rewrite lookup_insert_ne by assumption. assumption.
Qed.

Lemma processed_run (txs : list (Env * Call)) (r : uint256) (s : State) :
  Forall (keepsRequest r) txs ->
  processed (contextAt s r) = true ->
  processed (contextAt (run txs s) r) = true.
Proof.
  intros Hall. revert s.
  induction Hall as [| [env c] txs Hkeep Hall IH]; intros s Hproc; cbn.
  - assumption.
  - apply IH. apply processed_transact; assumption.
Qed.

Lemma contextsPinned_transact (env : Env) (c : Call) (s : State) :
  contextsPinned s -> contextsPinned (snd (transact env c s)).
Proof.
  intros Hpin. destruct c.
  all: sol_run; unfold checked_add, ret, revert; sol_cases; try assumption.
  - intros r ctx. cbn.
    destruct (decide (oracle_requestId env = r)) as [-> | Hne].
    + rewrite lookup_insert_eq. intros [= <-]. reflexivity.
    + rewrite lookup_insert_ne by assumption. apply Hpin.
  - intros r ctx. cbn.
    destruct (decide (requestId = r)) as [-> | Hne].
    + rewrite lookup_insert_eq. intros [= <-]. cbn.
      match goal with H : negb _ = false |- _ =>
        apply negb_false_iff, Z.eqb_eq in H; symmetry; exact H end.
    + rewrite lookup_insert_ne by assumption. apply Hpin.
Qed.

Lemma reachable_contextsPinned (s : State) : reachable s -> contextsPinned s.
Proof.
  induction 1 as [env s Hdep | env c s Hreach IH].
  - rewrite deploy_result in Hdep. injection Hdep as <-.
    intros r ctx. cbn. rewrite lookup_empty. discriminate.
  - apply contextsPinned_transact. assumption.
Qed.

End Properties.

(** *** The scenario states are reachable *)

Lemma reachable_sDeployed : reachable (fhe := demoPlatform) sDeployed.
Proof.
  apply (reachable_deploy (by_ alice 1000)).
  unfold sDeployed. rewrite deploy_result. reflexivity.
Qed.

Lemma reachable_sSubmitted : reachable (fhe := demoPlatform) sSubmitted.
Proof. apply reachable_transact, reachable_sDeployed. Qed.

Lemma reachable_sClosed : reachable (fhe := demoPlatform) sClosed.
Proof. apply reachable_transact, reachable_sSubmitted. Qed.

Lemma reachable_sRequested : reachable (fhe := demoPlatform) sRequested.
Proof. apply reachable_transact, reachable_sClosed. Qed.

Lemma reachable_sPaused : reachable (fhe := demoPlatform) sPaused.
Proof. apply reachable_transact, reachable_sDeployed. Qed.

(** ** The decryption callback *)

(** C1, as the contract has it: a callback on a request already processed
    fails with ReplayAttempt whatever the proof; a callback on an identifier
    for which nothing is stored does not fail with ReplayAttempt, it fails
    with StateMismatch as soon as the placeholder hash is not zero; on a
    stored, unprocessed request the first callback with an accepted proof
    and 32 bytes of cleartext succeeds and sets [processed], and after it
    every callback with the same identifier fails with ReplayAttempt, as long
    as the bridge does not hand that identifier to a new request. *)
Theorem callback_at_most_once {fhe : Platform} (s : State) (r : uint256)
    (Hreach : reachable s) :
  (processed (contextAt s r) = true ->
   forall env cleartexts proof,
     transact env (CallMyCallback r cleartexts proof) s = (Failure ReplayAttempt, s)) /\
  (decryptionContexts s !! r = None ->
   forall env cleartexts proof,
     fst (transact env (CallMyCallback r cleartexts proof) s) <> Failure ReplayAttempt /\
     (placeholderHash <> 0 ->
      transact env (CallMyCallback r cleartexts proof) s = (Failure StateMismatch, s))) /\
  (forall ctx, decryptionContexts s !! r = Some ctx -> processed ctx = false ->
   forall env cleartexts proof,
     checkSignatures r cleartexts proof = true -> length cleartexts = 32%nat ->
     exists s',
       transact env (CallMyCallback r cleartexts proof) s = (Success, s') /\
       processed (contextAt s' r) = true /\
       forall txs, Forall (keepsRequest r) txs ->
       forall env' cleartexts' proof',
         transact env' (CallMyCallback r cleartexts' proof') (run txs s') =
           (Failure ReplayAttempt, run txs s')).
Proof.
  split; [| split].
  - intros Hproc env ct pf. rewrite myCallback_run, Hproc. reflexivity.
  - intros Hnone env ct pf. rewrite myCallback_run.
    unfold contextAt. rewrite Hnone. cbn. split.
    + destruct (negb (placeholderHash =? 0)); [discriminate |].
      destruct (checkSignatures r ct pf); [| discriminate].
      destruct (negb (Z.of_nat (length ct) =? 32)); discriminate.
    + intros Hnz. destruct (Z.eqb_spec placeholderHash 0); [contradiction | reflexivity].
  - intros ctx Hctx Hproc env ct pf Hsig Hlen.
    pose proof (reachable_contextsPinned s Hreach r ctx Hctx) as Hpin.
    exists (completed r ct s). split; [| split].
    + rewrite myCallback_run. unfold contextAt at 1 2. rewrite Hctx. cbn.
      rewrite Hproc, Hpin, Z.eqb_refl, Hsig, Hlen. reflexivity.
    + apply completed_processed.
    + intros txs Hall env' ct' pf'. rewrite myCallback_run.
      rewrite processed_run; [reflexivity | assumption | apply completed_processed].
Qed.

Lemma callback_at_most_once_witness :
  exists s',
    transact (fhe := demoPlatform) (by_ bob 5000)
      (CallMyCallback requestR cleartext7 [x01]) sRequested = (Success, s') /\
    processed (contextAt s' requestR) = true /\
    fst (transact (fhe := demoPlatform) (by_ bob 6000)
           (CallMyCallback requestR cleartext7 [x01])
           (run (fhe := demoPlatform) [(by_ alice 5500, CallSubmitAttestation 9)] s'))
      = Failure ReplayAttempt.
Proof.
  destruct (callback_at_most_once (fhe := demoPlatform) sRequested requestR
              reachable_sRequested) as (_ & _ & H).
  destruct (H (mkDecryptionContext 1 127504 false) eq_refl eq_refl (by_ bob 5000)
              cleartext7 [x01] eq_refl eq_refl) as (s' & Hok & Hproc & Hlater).
  exists s'. split; [exact Hok | split; [exact Hproc |]].
  rewrite Hlater; [reflexivity |].
  constructor; [exact I | constructor].
Defined.

(** C1 as stated fails: nothing was ever stored for request 5 in the freshly
    deployed contract, and the callback fails with StateMismatch, not with
    ReplayAttempt. *)
Lemma callback_unknown_request_not_replay :
  decryptionContexts sDeployed !! requestR = None /\
  fst (transact (fhe := demoPlatform) (by_ bob 5000)
         (CallMyCallback requestR cleartext7 [x01]) sDeployed) = Failure StateMismatch /\
  fst (transact (fhe := demoPlatform) (by_ bob 5000)
         (CallMyCallback requestR cleartext7 [x01]) sDeployed) <> Failure ReplayAttempt.
Proof.
  split; [vm_compute; reflexivity |].
  split; [vm_compute; reflexivity | vm_compute; discriminate].
Qed.

(** C2, as the contract has it: on an unprocessed request the callback fails
    with StateMismatch exactly when the hash of the fixed placeholder list
    differs from the stored hash; the log of submissions plays no part in
    the outcome; and since every stored request carries the placeholder
    hash, a callback on a stored request never fails with StateMismatch. *)
Theorem callback_hash_is_placeholder {fhe : Platform} (s : State) (r : uint256)
    (Hproc : processed (contextAt s r) = false) :
  (forall env cleartexts proof,
     transact env (CallMyCallback r cleartexts proof) s = (Failure StateMismatch, s)
     <-> placeholderHash <> stateHash (contextAt s r)) /\
  (forall env cleartexts proof l,
     fst (transact env (CallMyCallback r cleartexts proof) (with_events l s)) =
     fst (transact env (CallMyCallback r cleartexts proof) s)) /\
  (reachable s -> is_Some (decryptionContexts s !! r) ->
   forall env cleartexts proof,
     fst (transact env (CallMyCallback r cleartexts proof) s) <> Failure StateMismatch).
Proof.
  split; [| split].
  - intros env ct pf. rewrite myCallback_run, Hproc.
    destruct (Z.eqb_spec placeholderHash (stateHash (contextAt s r))) as [Heq | Hne]; cbn.
    + split; [| contradiction].
      destruct (checkSignatures r ct pf); [| discriminate].
      destruct (negb (Z.of_nat (length ct) =? 32)); discriminate.
    + split; [intros _; assumption | reflexivity].
  - intros env ct pf l. rewrite !myCallback_run.
    change (contextAt (with_events l s) r) with (contextAt s r).
    destruct (processed (contextAt s r)); [reflexivity |].
    destruct (negb (placeholderHash =? stateHash (contextAt s r))); [reflexivity |].
    destruct (checkSignatures r ct pf); [| reflexivity].
    destruct (negb (Z.of_nat (length ct) =? 32)); reflexivity.
  - intros Hreach [ctx Hctx] env ct pf. rewrite myCallback_run, Hproc.
    pose proof (reachable_contextsPinned s Hreach r ctx Hctx) as Hpin.
    unfold contextAt. rewrite Hctx. cbn. rewrite Hpin, Z.eqb_refl. cbn.
    destruct (checkSignatures r ct pf); [| discriminate].
    destruct (negb (Z.of_nat (length ct) =? 32)); discriminate.
Qed.

Lemma callback_hash_is_placeholder_witness :
  processed (contextAt sRequested requestR) = false /\
  fst (transact (fhe := demoPlatform) (by_ bob 5000)
         (CallMyCallback requestR cleartext7 [x01]) sRequested) <> Failure StateMismatch.
Proof.
  split; [reflexivity |].
  refine (proj2 (proj2 (callback_hash_is_placeholder (fhe := demoPlatform)
            sRequested requestR eq_refl)) reachable_sRequested _ _ _ _).
  exists (mkDecryptionContext 1 127504 false). reflexivity.
Defined.

(** C2 as stated fails: batch 1 holds the submission 7, the request stored
    for it carries the hash of the placeholder list, the hash of the live
    list differs from the stored one, and the callback succeeds. *)
Lemma callback_ignores_live_submissions :
  batchCiphertexts sRequested 1 = [7] /\
  batchId (contextAt sRequested requestR) = 1 /\
  processed (contextAt sRequested requestR) = false /\
  liveHash (fhe := demoPlatform) sRequested 1 <> stateHash (contextAt sRequested requestR) /\
  fst (transact (fhe := demoPlatform) (by_ bob 5000)
         (CallMyCallback requestR cleartext7 [x01]) sRequested) = Success.
Proof.
  repeat split; try (vm_compute; reflexivity).
  vm_compute. discriminate.
Qed.

(** ** The cooldown gate *)

(** C3: [requestBatchValidation] is gated on the caller's last submission,
    the time of the caller's last decryption request is written and never
    read.  Alice, who submitted at 3000 and never requested a decryption, is
    refused with CooldownActive at 3010; Alice, who requested a decryption
    at 3000 and never submitted, is let through at 3010, inside the window
    of 60 seconds. *)
Theorem request_cooldown_reads_submission_time :
  (lastDecryptionRequestTimeAt sSubmittedLate alice = 0 /\
   cooldownSeconds sSubmittedLate = 60 /\
   lastSubmissionTimeAt sSubmittedLate alice = 3000 /\
   transact (fhe := demoPlatform) (by_ alice 3010) (CallRequestBatchValidation 1)
     sSubmittedLate = (Failure CooldownActive, sSubmittedLate)) /\
  (lastDecryptionRequestTimeAt sRequestedEarly alice = 3000 /\
   cooldownSeconds sRequestedEarly = 60 /\
   lastSubmissionTimeAt sRequestedEarly alice = 0 /\
   fst (transact (fhe := demoPlatform) (by_ alice 3010) (CallRequestBatchValidation 1)
          sRequestedEarly) = Success).
Proof. repeat split; vm_compute; reflexivity. Qed.

(** ** The pause switch *)

(** C4, as the contract has it: while the contract is paused a provider's
    [submitAttestation] and the owner's [requestBatchValidation] fail with
    PausedError and leave the storage as it was; [setCooldownSeconds],
    [closeCurrentBatch] and the callback do not look at the pause flag: the
    first two go through for the owner, and the callback ends the same way
    whether or not the contract is paused. *)
Theorem pause_gate {fhe : Platform} (s : State) (Hpaused : paused s = true) :
  (forall env x, isProviderAt s (msg_sender env) = true ->
     transact env (CallSubmitAttestation x) s = (Failure PausedError, s)) /\
  (forall env b, msg_sender env = owner s ->
     transact env (CallRequestBatchValidation b) s = (Failure PausedError, s)) /\
  (forall env n, msg_sender env = owner s -> 0 < n ->
     transact env (CallSetCooldownSeconds n) s =
       (Success, log (CooldownSecondsUpdated (cooldownSeconds s) n)
                   (set_cooldownSeconds n s))) /\
  (forall env, msg_sender env = owner s ->
     id (batchAt s (currentBatchId s)) <> 0 ->
     active (batchAt s (currentBatchId s)) = true ->
     currentBatchId s + 1 <= max_uint256 ->
     transact env CallCloseCurrentBatch s = (Success, closedAndOpened env s)) /\
  (forall env r cleartexts proof,
     fst (transact env (CallMyCallback r cleartexts proof) s) =
     fst (transact env (CallMyCallback r cleartexts proof) (set_paused false s))).
Proof.
  repeat split.
  - intros env x Hprov.
    unfold transact, execute, dispatch, submitAttestation, bind.
    rewrite onlyProvider_run, Hprov, whenNotPaused_run, Hpaused. reflexivity.
  - intros env b Hown.
    unfold transact, execute, dispatch, requestBatchValidation, bind.
    rewrite onlyOwner_pass by assumption.
    rewrite whenNotPaused_run, Hpaused. reflexivity.
  - intros env n Hown Hn.
    unfold transact, execute, dispatch, setCooldownSeconds, bind.
    rewrite onlyOwner_pass by assumption.
    destruct (Z.gtb_spec n 0); [reflexivity | lia].
  - intros env Hown Hid Hact Hmax. apply closeCurrentBatch_ok; assumption.
  - intros env r ct pf. rewrite !myCallback_run.
    change (contextAt (set_paused false s) r) with (contextAt s r).
    destruct (processed (contextAt s r)); [reflexivity |].
    destruct (negb (placeholderHash =? stateHash (contextAt s r))); [reflexivity |].
    destruct (checkSignatures r ct pf); [| reflexivity].
    destruct (negb (Z.of_nat (length ct) =? 32)); reflexivity.
Qed.

Lemma pause_gate_witness :
  paused sPaused = true /\
  transact (fhe := demoPlatform) (by_ alice 2000) (CallSubmitAttestation 7) sPaused =
    (Failure PausedError, sPaused) /\
  transact (fhe := demoPlatform) (by_ alice 2000) (CallRequestBatchValidation 1) sPaused =
    (Failure PausedError, sPaused).
Proof.
  split; [reflexivity |].
  destruct (pause_gate (fhe := demoPlatform) sPaused eq_refl) as (Hsub & Hreq & _).
  split; [apply Hsub | apply Hreq]; reflexivity.
Defined.

(** C4 as stated fails: the contract is paused, the owner closes the current
    batch, the call succeeds and the storage changes. *)
Lemma close_succeeds_while_paused :
  paused sPaused = true /\
  fst (transact (fhe := demoPlatform) (by_ alice 3000) CallCloseCurrentBatch sPaused)
    = Success /\
  currentBatchId sPaused = 1 /\
  currentBatchId
    (snd (transact (fhe := demoPlatform) (by_ alice 3000) CallCloseCurrentBatch sPaused))
    = 2.
Proof. repeat split; vm_compute; reflexivity. Qed.

(** ** The batch ledger *)

(** C5: in every state the contract can reach, the current batch id is at
    least 1, the batch under it is the one and only active batch, the ids
    the contract has opened are 1, 2, ..., up to the current one in that
    order, no slot outside that range was ever written, and every
    transaction leads to a state where all of this holds again. *)
Theorem batch_ledger_invariant {fhe : Platform} (s : State) (Hreach : reachable s) :
  batchInvariant s /\
  active (batchAt s (currentBatchId s)) = true /\
  (forall i, i <> currentBatchId s -> active (batchAt s i) = false) /\
  (forall env c, batchInvariant (snd (transact env c s))).
Proof.
  pose proof (reachable_batchInvariant s Hreach) as Hinv.
  split; [assumption |]. split; [| split].
  - apply (inv_active s Hinv). reflexivity.
  - intros i Hne. destruct (active (batchAt s i)) eqn:Hact; [| reflexivity].
    apply (inv_active s Hinv) in Hact. contradiction.
  - intros env c. apply batchInvariant_transact. assumption.
Qed.

Lemma batch_ledger_invariant_witness :
  batchInvariant sClosed /\
  active (batchAt sClosed (currentBatchId sClosed)) = true /\
  openedIds (events sClosed) = [1; 2].
Proof.
  destruct (batch_ledger_invariant (fhe := demoPlatform) sClosed reachable_sClosed)
    as (Hinv & Hact & _).
  split; [exact Hinv | split; [exact Hact | reflexivity]].
Defined.

(** C6: when the owner calls [closeCurrentBatch] on an existing current
    batch that is active (and the batch counter is below the largest
    uint256), the call succeeds, the batch becomes inactive with
    [closedAt = now], the current id grows by one and the new current batch
    is active with [createdAt = now]; a submit that follows and passes its
    gates is logged against the new id.  When the current batch is not
    active the call fails with BatchNotActive. *)
Theorem closeCurrentBatch_spec {fhe : Platform} (env : Env) (s : State)
    (Hown : msg_sender env = owner s)
    (Hid : id (batchAt s (currentBatchId s)) <> 0) :
  (active (batchAt s (currentBatchId s)) = true ->
   currentBatchId s + 1 <= max_uint256 ->
   exists s',
     transact env CallCloseCurrentBatch s = (Success, s') /\
     batchAt s' (currentBatchId s) =
       mkBatch (id (batchAt s (currentBatchId s))) false
         (createdAt (batchAt s (currentBatchId s))) (block_timestamp env) /\
     currentBatchId s' = currentBatchId s + 1 /\
     batchAt s' (currentBatchId s') =
       mkBatch (currentBatchId s + 1) true (block_timestamp env) 0 /\
     forall env' x, submitGates env' x s' ->
       exists s'',
         transact env' (CallSubmitAttestation x) s' = (Success, s'') /\
         events s'' = events s' ++
           [AttestationSubmitted (msg_sender env') (currentBatchId s + 1) (toBytes32 x)]) /\
  (active (batchAt s (currentBatchId s)) = false ->
   transact env CallCloseCurrentBatch s = (Failure BatchNotActive, s)).
Proof.
  split.
  - intros Hact Hmax. exists (closedAndOpened env s).
    assert (Hnew : batchAt (closedAndOpened env s) (currentBatchId s + 1) =
                   mkBatch (currentBatchId s + 1) true (block_timestamp env) 0).
    { unfold batchAt. cbn. rewrite lookup_insert_eq. reflexivity. }
    split; [apply closeCurrentBatch_ok; assumption |].
    split; [| split; [reflexivity | split; [exact Hnew |]]].
    + unfold batchAt at 1. cbn.
      rewrite lookup_insert_ne by lia. rewrite lookup_insert_eq. reflexivity.
    + intros env' x Hgates. exists (submitted env' x (closedAndOpened env s)).
      split; [| reflexivity].
      apply submitAttestation_ok; [assumption |].
      change (currentBatchId (closedAndOpened env s)) with (currentBatchId s + 1).
      rewrite Hnew. reflexivity.
  - intros Hact. apply closeCurrentBatch_closed; assumption.
Qed.

Lemma closeCurrentBatch_spec_witness :
  (exists s',
     transact (fhe := demoPlatform) (by_ alice 3000) CallCloseCurrentBatch sSubmitted
       = (Success, s') /\
     batchAt s' 1 = mkBatch 1 false 1000 3000 /\
     currentBatchId s' = 2 /\
     batchAt s' 2 = mkBatch 2 true 3000 0) /\
  transact (fhe := demoPlatform) (by_ alice 3000) CallCloseCurrentBatch sStale
    = (Failure BatchNotActive, sStale).
Proof.
  split.
  - assert (Hid : id (batchAt sSubmitted (currentBatchId sSubmitted)) <> 0)
      by (vm_compute; discriminate).
    assert (Hmax : currentBatchId sSubmitted + 1 <= max_uint256)
      by (vm_compute; discriminate).
    destruct (proj1 (closeCurrentBatch_spec (fhe := demoPlatform) (by_ alice 3000)
                       sSubmitted eq_refl Hid) eq_refl Hmax)
      as (s' & Hok & Hold & Hcur & Hnew & _).
    exists s'. split; [exact Hok |]. split; [exact Hold |].
    split; [exact Hcur |]. rewrite Hcur in Hnew. exact Hnew.
  - assert (Hid : id (batchAt sStale (currentBatchId sStale)) <> 0)
      by (vm_compute; discriminate).
    exact (proj2 (closeCurrentBatch_spec (fhe := demoPlatform) (by_ alice 3000)
                    sStale eq_refl Hid) eq_refl).
Defined.

(** C7, as the contract has it: in a state the contract can reach, a submit
    never fails with BatchNotActive; when [closeCurrentBatch] has just
    succeeded, a submit that passes its other gates succeeds and is logged
    against the batch the close opened. *)
Theorem submit_after_close {fhe : Platform} (s : State) (Hreach : reachable s) :
  (forall env x,
     fst (transact env (CallSubmitAttestation x) s) <> Failure BatchNotActive) /\
  (forall env s', transact env CallCloseCurrentBatch s = (Success, s') ->
     currentBatchId s' = currentBatchId s + 1 /\
     forall env' x, submitGates env' x s' ->
       transact env' (CallSubmitAttestation x) s' = (Success, submitted env' x s') /\
       events (submitted env' x s') = events s' ++
         [AttestationSubmitted (msg_sender env') (currentBatchId s + 1) (toBytes32 x)]).
Proof.
  split.
  - intros env x Hfail.
    destruct (transact env (CallSubmitAttestation x) s) as [res s'] eqn:Hrun.
    cbn in Hfail. subst res.
    apply submitAttestation_BatchNotActive in Hrun.
    pose proof (reachable_batchInvariant s Hreach) as Hinv.
    assert (active (batchAt s (currentBatchId s)) = true)
      by (apply (inv_active s Hinv); reflexivity).
    congruence.
  - intros env s' Hclose.
    assert (Hreach' : reachable s').
    { replace s' with (snd (transact env CallCloseCurrentBatch s))
        by (rewrite Hclose; reflexivity).
      apply reachable_transact. assumption. }
    assert (Hcur : currentBatchId s' = currentBatchId s + 1).
    { destruct (closeCurrentBatch_cases env s) as [[_ Hok] | [e Hfail]].
      - rewrite Hok in Hclose. injection Hclose as <-. reflexivity.
      - rewrite Hfail in Hclose. discriminate. }
    split; [exact Hcur |].
    intros env' x Hgates. split.
    + apply submitAttestation_ok; [assumption |].
      apply (inv_active s' (reachable_batchInvariant s' Hreach')). reflexivity.
    + unfold submitted. cbn. rewrite Hcur. reflexivity.
Qed.

Lemma submit_after_close_witness :
  transact (fhe := demoPlatform) (by_ alice 3000) CallCloseCurrentBatch sSubmitted
    = (Success, sClosed) /\
  transact (fhe := demoPlatform) (by_ alice 3000) (CallSubmitAttestation 8) sClosed
    = (Success, submitted (fhe := demoPlatform) (by_ alice 3000) 8 sClosed) /\
  events (submitted (fhe := demoPlatform) (by_ alice 3000) 8 sClosed)
    = events sClosed ++ [AttestationSubmitted alice 2 8].
Proof.
  assert (Hclose : transact (fhe := demoPlatform) (by_ alice 3000) CallCloseCurrentBatch
                     sSubmitted = (Success, sClosed)) by (vm_compute; reflexivity).
  split; [exact Hclose |].
  destruct (proj2 (submit_after_close (fhe := demoPlatform) sSubmitted
                     reachable_sSubmitted) (by_ alice 3000) sClosed Hclose)
    as (_ & Hsub).
  apply (Hsub (by_ alice 3000) 8).
  repeat split; vm_compute; try reflexivity; discriminate.
Defined.

(** C7 as stated fails: Alice closes batch 1 and submits in the same second;
    her other gates pass, and the submit succeeds, logged against batch 2. *)
Lemma submit_after_close_succeeds :
  transact (fhe := demoPlatform) (by_ alice 3000) CallCloseCurrentBatch sSubmitted
    = (Success, sClosed) /\
  fst (transact (fhe := demoPlatform) (by_ alice 3000) (CallSubmitAttestation 8) sClosed)
    = Success /\
  fst (transact (fhe := demoPlatform) (by_ alice 3000) (CallSubmitAttestation 8) sClosed)
    <> Failure BatchNotActive.
Proof.
  split; [vm_compute; reflexivity |].
  split; [vm_compute; reflexivity | vm_compute; discriminate].
Qed.

(** ** Requesting validation *)

(** C8: once the owner's call is past the pause and cooldown gates,
    [requestBatchValidation] fails with InvalidBatch exactly when the batch
    id is 0, or is the current id or beyond, or names a batch whose
    [closedAt] is unset; in every other case the request is stored. *)
Theorem requestBatchValidation_InvalidBatch {fhe : Platform}
    (env : Env) (b : uint256) (s : State) (Hgates : requestGates env s) :
  (fst (transact env (CallRequestBatchValidation b) s) = Failure InvalidBatch
   <-> b = 0 \/ b >= currentBatchId s \/ closedAt (batchAt s b) = 0) /\
  (invalidBatch s b ->
   transact env (CallRequestBatchValidation b) s = (Failure InvalidBatch, s)) /\
  (~ invalidBatch s b ->
   transact env (CallRequestBatchValidation b) s = (Success, requested env b s)).
Proof.
  rewrite requestBatchValidation_run by assumption.
  pose proof (invalidBatch_test s b) as Htest. fold (invalidBatch s b).
  destruct ((b =? 0) || (b >=? currentBatchId s) || (closedAt (batchAt s b) =? 0)).
  - assert (invalidBatch s b) by (apply Htest; reflexivity).
    split; [cbn; tauto |]. split; [reflexivity | contradiction].
  - assert (~ invalidBatch s b) by (intros H; apply Htest in H; discriminate).
    split; [cbn; split; [discriminate | contradiction] |].
    split; [contradiction | reflexivity].
Qed.

Lemma requestBatchValidation_InvalidBatch_witness :
  requestGates (by_ alice 4000) sClosed /\
  transact (fhe := demoPlatform) (by_ alice 4000) (CallRequestBatchValidation 0) sClosed
    = (Failure InvalidBatch, sClosed) /\
  transact (fhe := demoPlatform) (by_ alice 4000) (CallRequestBatchValidation 2) sClosed
    = (Failure InvalidBatch, sClosed) /\
  transact (fhe := demoPlatform) (by_ alice 4000) (CallRequestBatchValidation 1) sClosed
    = (Success, sRequested).
Proof.
  assert (Hgates : requestGates (by_ alice 4000) sClosed).
  { repeat split; vm_compute; try reflexivity; discriminate. }
  split; [exact Hgates |].
  split; [| split].
  - apply (requestBatchValidation_InvalidBatch (fhe := demoPlatform)
             (by_ alice 4000) 0 sClosed Hgates).
    left. reflexivity.
  - apply (requestBatchValidation_InvalidBatch (fhe := demoPlatform)
             (by_ alice 4000) 2 sClosed Hgates).
    right. left. vm_compute. discriminate.
  - replace sRequested with (requested (fhe := demoPlatform) (by_ alice 4000) 1 sClosed)
      by (vm_compute; reflexivity).
    apply (requestBatchValidation_InvalidBatch (fhe := demoPlatform)
             (by_ alice 4000) 1 sClosed Hgates).
    intros [H | [H | H]]; vm_compute in H; try discriminate.
    apply H. reflexivity.
Defined.

(** ** Failure *)

(** C9: a call that fails leaves the storage exactly as it found it; in
    particular it does not move the caller's last submission time, and the
    cooldown gate answers after the failed call as it did before. *)
Theorem failed_call_changes_nothing {fhe : Platform}
    (env : Env) (c : Call) (s s' : State) (e : Error)
    (Hfail : transact env c s = (Failure e, s')) :
  s' = s /\
  (forall a, lastSubmissionTimeAt s' a = lastSubmissionTimeAt s a) /\
  (forall env', respectCooldown env' s' = respectCooldown env' s).
Proof.
  assert (s' = s) as -> by (apply (execute_failure _ _ _ _ Hfail)).
  repeat split.
Qed.

Lemma failed_call_changes_nothing_witness :
  submitAttestation (fhe := demoPlatform) (by_ alice 2000) 7 sStale =
    (Revert BatchNotActive, set_lastSubmissionTime alice 2000 sStale) /\
  snd (transact (fhe := demoPlatform) (by_ alice 2000) (CallSubmitAttestation 7) sStale)
    = sStale.
Proof.
  split; [vm_compute; reflexivity |].
  apply (failed_call_changes_nothing (fhe := demoPlatform) (by_ alice 2000)
           (CallSubmitAttestation 7) sStale _ BatchNotActive).
  vm_compute. reflexivity.
Defined.

(** ** Construction *)

(** C10: the constructor makes the deployer the owner and a provider, logs
    ProviderAdded for them, sets the cooldown to 60 seconds and opens batch 1
    as the active batch; from that state the owner's submit of an
    initialised handle succeeds at any time from second 60 on, with no call
    to [addProvider]. *)
Theorem constructor_spec {fhe : Platform} (env : Env) :
  exists s,
    deploy env = (Success, s) /\
    owner s = msg_sender env /\
    isProviderAt s (msg_sender env) = true /\
    cooldownSeconds s = 60 /\
    currentBatchId s = 1 /\
    batchAt s 1 = mkBatch 1 true (block_timestamp env) 0 /\
    events s = [ProviderAdded (msg_sender env); BatchOpened 1 (block_timestamp env)] /\
    forall env' x,
      msg_sender env' = msg_sender env ->
      60 <= block_timestamp env' ->
      isInitialized x = true ->
      exists s',
        transact env' (CallSubmitAttestation x) s = (Success, s') /\
        events s' = events s ++ [AttestationSubmitted (msg_sender env) 1 (toBytes32 x)].
Proof.
  exists (deployed env).
  assert (Hprov : isProviderAt (deployed env) (msg_sender env) = true).
  { unfold isProviderAt. cbn. rewrite lookup_insert_eq. reflexivity. }
  assert (Hbatch : batchAt (deployed env) 1 = mkBatch 1 true (block_timestamp env) 0).
  { unfold batchAt. cbn. rewrite lookup_insert_eq. reflexivity. }
  split; [apply deploy_result |].
  do 2 (split; [reflexivity || assumption |]).
  do 2 (split; [reflexivity |]).
  split; [assumption |]. split; [reflexivity |].
  intros env' x Hsender Hnow Hinit.
  exists (submitted env' x (deployed env)). split.
  - apply submitAttestation_ok.
    + unfold submitGates, cooldownElapsed, lastSubmissionTimeAt. cbn.
      rewrite lookup_empty. cbn. pose proof max_uint256_large.
      split; [rewrite Hsender; assumption |].
      split; [reflexivity |]. split; [lia | assumption].
    + change (currentBatchId (deployed env)) with 1. rewrite Hbatch. reflexivity.
  - unfold submitted. cbn. rewrite Hsender. reflexivity.
Qed.

Lemma constructor_spec_witness :
  exists s,
    deploy (by_ alice 1000) = (Success, s) /\
    owner s = alice /\
    fst (transact (fhe := demoPlatform) (by_ alice 2000) (CallSubmitAttestation 7) s)
      = Success.
Proof.
  destruct (constructor_spec (fhe := demoPlatform) (by_ alice 1000))
    as (s & Hdep & Hown & _ & _ & _ & _ & _ & Hsub).
  exists s. split; [exact Hdep | split; [exact Hown |]].
  destruct (Hsub (by_ alice 2000) 7 eq_refl) as (s' & Hok & _).
  - vm_compute. discriminate.
  - reflexivity.
  - rewrite Hok. reflexivity.
Defined.

(** ** Further properties of the contract *)

(** *** Access registry *)

Lemma ownerOnly_rejects {fhe : Platform} (env : Env) (c : Call) (s : State) :
  msg_sender env <> owner s -> ownerOnly c = true ->
  transact env c s = (Failure NotOwner, s).
Proof.
  intros Hne Hc. destruct c; try discriminate Hc.
  all: unfold transact, execute, dispatch, transferOwnership, addProvider,
         removeProvider, pause, unpause, setCooldownSeconds, closeCurrentBatch,
         requestBatchValidation, bind;
       rewrite onlyOwner_run;
       destruct (Z.eqb_spec (msg_sender env) (owner s)); [contradiction | reflexivity].
Qed.

(** The outcome of [submitAttestation], check by check. *)
Lemma submitAttestation_run {fhe : Platform} (env : Env) (x : euint32) (s : State) :
  transact env (CallSubmitAttestation x) s =
  let limit := lastSubmissionTimeAt s (msg_sender env) + cooldownSeconds s in
  if negb (isProviderAt s (msg_sender env)) then (Failure NotProvider, s)
  else if paused s then (Failure PausedError, s)
  else if negb (limit <=? max_uint256) then (Failure (Panic 17), s)
  else if block_timestamp env <? limit then (Failure CooldownActive, s)
  else if negb (isInitialized x)
  then (Failure (ErrorString "FHE value not initialized"), s)
  else if negb (active (batchAt s (currentBatchId s))) then (Failure BatchNotActive, s)
  else (Success, submitted env x s).
Proof.
  sol_run. unfold checked_add, ret, revert, batchAt. cbn.
  sol_cases; reflexivity.
Qed.

(** The outcome of [requestBatchValidation], check by check. *)
Lemma requestBatchValidation_full_run {fhe : Platform} (env : Env) (b : uint256) (s : State) :
  transact env (CallRequestBatchValidation b) s =
  let limit := lastSubmissionTimeAt s (msg_sender env) + cooldownSeconds s in
  if negb (msg_sender env =? owner s) then (Failure NotOwner, s)
  else if paused s then (Failure PausedError, s)
  else if negb (limit <=? max_uint256) then (Failure (Panic 17), s)
  else if block_timestamp env <? limit then (Failure CooldownActive, s)
  else if (b =? 0) || (b >=? currentBatchId s) || (closedAt (batchAt s b) =? 0)
  then (Failure InvalidBatch, s)
  else (Success, requested env b s).
Proof.
  sol_run. unfold checked_add, ret, revert, batchAt. cbn.
  sol_cases; reflexivity.
Qed.

(** Every function that carries [onlyOwner] fails with NotOwner for any
    other caller and leaves the storage as it was; the two functions without
    the modifier never fail with NotOwner. *)
Theorem non_owner_rejected {fhe : Platform} (env : Env) (s : State)
    (Hne : msg_sender env <> owner s) :
  forall c,
    (ownerOnly c = true -> transact env c s = (Failure NotOwner, s)) /\
    (ownerOnly c = false -> fst (transact env c s) <> Failure NotOwner).
Proof.
  intros c. split; intros Hc.
  - apply ownerOnly_rejects; assumption.
  - destruct c; try discriminate Hc.
    + rewrite submitAttestation_run. cbn zeta. sol_cases; discriminate.
    + rewrite myCallback_run. sol_cases; discriminate.
Qed.

Lemma non_owner_rejected_witness :
  transact (fhe := demoPlatform) (by_ bob 2000) CallCloseCurrentBatch sDeployed
    = (Failure NotOwner, sDeployed) /\
  transact (fhe := demoPlatform) (by_ bob 2000) (CallAddProvider bob) sDeployed
    = (Failure NotOwner, sDeployed).
Proof.
  assert (Hne : msg_sender (by_ bob 2000) <> owner sDeployed)
    by (vm_compute; discriminate).
  split.
  - apply (non_owner_rejected (fhe := demoPlatform) (by_ bob 2000) sDeployed Hne
             CallCloseCurrentBatch). reflexivity.
  - apply (non_owner_rejected (fhe := demoPlatform) (by_ bob 2000) sDeployed Hne
             (CallAddProvider bob)). reflexivity.
Defined.

Lemma addProvider_run {fhe : Platform} (env : Env) (p : address) (s : State) :
  msg_sender env = owner s ->
  transact env (CallAddProvider p) s =
  if isProviderAt s p then (Success, s)
  else (Success, log (ProviderAdded p) (set_isProvider p true s)).
Proof.
  intros Hown. unfold transact, execute, dispatch, addProvider, bind.
  rewrite onlyOwner_pass by assumption. sol_run.
  destruct (isProviderAt s p); reflexivity.
Qed.

Lemma removeProvider_run {fhe : Platform} (env : Env) (p : address) (s : State) :
  msg_sender env = owner s ->
  transact env (CallRemoveProvider p) s =
  if isProviderAt s p
  then (Success, log (ProviderRemoved p) (set_isProvider p false s))
  else (Success, s).
Proof.
  intros Hown. unfold transact, execute, dispatch, removeProvider, bind.
  rewrite onlyOwner_pass by assumption. sol_run.
  destruct (isProviderAt s p); reflexivity.
Qed.

Lemma isProviderAt_set (p q : address) (v : bool) (s : State) :
  isProviderAt (set_isProvider p v s) q = if decide (p = q) then v else isProviderAt s q.
Proof.
  unfold isProviderAt. cbn. destruct (decide (p = q)) as [-> | Hne].
  - rewrite lookup_insert_eq. reflexivity.
  - rewrite lookup_insert_ne by assumption. reflexivity.
Qed.

(** [addProvider] by the owner always succeeds and leaves the address a
    provider; it logs ProviderAdded only if the address was not one already,
    touches no other address, and calling it again changes nothing at all. *)
Theorem addProvider_idempotent {fhe : Platform} (env : Env) (p : address) (s : State)
    (Hown : msg_sender env = owner s) :
  exists s1,
    transact env (CallAddProvider p) s = (Success, s1) /\
    isProviderAt s1 p = true /\
    (forall q, q <> p -> isProviderAt s1 q = isProviderAt s q) /\
    (isProviderAt s p = true -> s1 = s) /\
    (isProviderAt s p = false -> events s1 = events s ++ [ProviderAdded p]) /\
    transact env (CallAddProvider p) s1 = (Success, s1).
Proof.
  rewrite addProvider_run by assumption.
  destruct (isProviderAt s p) eqn:Hp.
  - exists s. repeat split; try assumption; try discriminate.
    rewrite addProvider_run, Hp by assumption. reflexivity.
  - exists (log (ProviderAdded p) (set_isProvider p true s)).
    assert (Hp1 : isProviderAt (log (ProviderAdded p) (set_isProvider p true s)) p = true).
    { change (isProviderAt (set_isProvider p true s) p = true).
      rewrite isProviderAt_set. destruct (decide (p = p)); [reflexivity | contradiction]. }
    repeat split; try assumption; try discriminate.
    + intros q Hq. change (isProviderAt (set_isProvider p true s) q = isProviderAt s q).
      rewrite isProviderAt_set. destruct (decide (p = q)); [congruence | reflexivity].
    + rewrite addProvider_run, Hp1 by assumption. reflexivity.
Qed.

Lemma addProvider_idempotent_witness :
  transact (fhe := demoPlatform) (by_ alice 1200) (CallAddProvider bob) sDeployed
    = (Success, sBobAdded) /\
  isProviderAt sBobAdded bob = true /\
  transact (fhe := demoPlatform) (by_ alice 1300) (CallAddProvider bob) sBobAdded
    = (Success, sBobAdded).
Proof.
  destruct (addProvider_idempotent (fhe := demoPlatform) (by_ alice 1200) bob sDeployed
              eq_refl) as (s1 & Hrun & Hp & _ & _ & _ & Hagain).
  assert (s1 = sBobAdded) as -> by (unfold sBobAdded; rewrite Hrun; reflexivity).
  split; [exact Hrun | split; [exact Hp |]].
  vm_compute. reflexivity.
Defined.

(** [removeProvider] by the owner always succeeds and leaves the address no
    provider, whoever it is (the owner included); no other address is
    touched, and from then on every submit of the removed address fails with
    NotProvider. *)
Theorem removeProvider_revokes {fhe : Platform} (env : Env) (p : address) (s : State)
    (Hown : msg_sender env = owner s) :
  exists s1,
    transact env (CallRemoveProvider p) s = (Success, s1) /\
    isProviderAt s1 p = false /\
    (forall q, q <> p -> isProviderAt s1 q = isProviderAt s q) /\
    (isProviderAt s p = false -> s1 = s) /\
    (isProviderAt s p = true -> events s1 = events s ++ [ProviderRemoved p]) /\
    (forall env' x, msg_sender env' = p ->
       transact env' (CallSubmitAttestation x) s1 = (Failure NotProvider, s1)).
Proof.
  rewrite removeProvider_run by assumption.
  assert (Hsub : forall s1, isProviderAt s1 p = false -> forall env' x,
            msg_sender env' = p ->
            transact env' (CallSubmitAttestation x) s1 = (Failure NotProvider, s1)).
  { intros s1 Hp1 env' x Hsender.
    unfold transact, execute, dispatch, submitAttestation, bind.
    rewrite onlyProvider_run, Hsender, Hp1. reflexivity. }
  destruct (isProviderAt s p) eqn:Hp.
  - exists (log (ProviderRemoved p) (set_isProvider p false s)).
    assert (Hp1 : isProviderAt (log (ProviderRemoved p) (set_isProvider p false s)) p = false).
    { change (isProviderAt (set_isProvider p false s) p = false).
      rewrite isProviderAt_set. destruct (decide (p = p)); [reflexivity | contradiction]. }
    repeat split; try assumption; try discriminate.
    + intros q Hq. change (isProviderAt (set_isProvider p false s) q = isProviderAt s q).
      rewrite isProviderAt_set. destruct (decide (p = q)); [congruence | reflexivity].
    + apply Hsub. assumption.
  - exists s. repeat split; try assumption; try discriminate.
    apply Hsub. assumption.
Qed.

Lemma removeProvider_revokes_witness :
  isProviderAt sDeployed alice = true /\
  exists s1,
    transact (fhe := demoPlatform) (by_ alice 1200) (CallRemoveProvider alice) sDeployed
      = (Success, s1) /\
    transact (fhe := demoPlatform) (by_ alice 2000) (CallSubmitAttestation 7) s1
      = (Failure NotProvider, s1).
Proof.
  split; [reflexivity |].
  destruct (removeProvider_revokes (fhe := demoPlatform) (by_ alice 1200) alice sDeployed
              eq_refl) as (s1 & Hrun & _ & _ & _ & _ & Hsub).
  exists s1. split; [exact Hrun |]. apply Hsub. reflexivity.
Defined.

(** Adding an address that was no provider and removing it again gives the
    provider status every address had before; what remains of the two calls
    is the pair of events in the log. *)
Theorem addProvider_removeProvider {fhe : Platform}
    (env1 env2 : Env) (p : address) (s : State)
    (Hown1 : msg_sender env1 = owner s) (Hown2 : msg_sender env2 = owner s)
    (Hp : isProviderAt s p = false) :
  let s2 := run [(env1, CallAddProvider p); (env2, CallRemoveProvider p)] s in
  (forall q, isProviderAt s2 q = isProviderAt s q) /\
  events s2 = events s ++ [ProviderAdded p; ProviderRemoved p] /\
  with_events (events s) (set_isProvider p false s2) = set_isProvider p false s.
Proof.
  cbn. rewrite addProvider_run, Hp by assumption. cbn.
  rewrite removeProvider_run by assumption.
  change (isProviderAt (log (ProviderAdded p) (set_isProvider p true s)) p)
    with (isProviderAt (set_isProvider p true s) p).
  rewrite isProviderAt_set. destruct (decide (p = p)); [| contradiction]. cbn.
  split; [| split].
  - intros q. unfold isProviderAt. cbn.
    destruct (decide (p = q)) as [-> | Hne].
    + rewrite lookup_insert_eq. cbn. symmetry. exact Hp.
    + rewrite !lookup_insert_ne by assumption. reflexivity.
  - rewrite <- app_assoc. reflexivity.
  - unfold with_events, set_isProvider. cbn. rewrite !insert_insert_eq. reflexivity.
Qed.

Lemma addProvider_removeProvider_witness :
  isProviderAt
    (run (fhe := demoPlatform)
       [(by_ alice 1200, CallAddProvider bob); (by_ alice 1300, CallRemoveProvider bob)]
       sDeployed) bob = false /\
  events
    (run (fhe := demoPlatform)
       [(by_ alice 1200, CallAddProvider bob); (by_ alice 1300, CallRemoveProvider bob)]
       sDeployed)
    = events sDeployed ++ [ProviderAdded bob; ProviderRemoved bob].
Proof.
  destruct (addProvider_removeProvider (fhe := demoPlatform) (by_ alice 1200)
              (by_ alice 1300) bob sDeployed eq_refl eq_refl eq_refl)
    as (Hsame & Hlog & _).
  split; [rewrite Hsame; reflexivity | exact Hlog].
Defined.

(** [transferOwnership] by the owner accepts any address, the zero address
    included, and changes the owner and nothing else but the log: the
    providers stay who they were, so the former owner keeps the provider
    status it had and the new owner gains none.  From then on every
    owner-only call of the former owner fails with NotOwner. *)
Theorem transferOwnership_hands_over {fhe : Platform}
    (env : Env) (newOwner : address) (s : State)
    (Hown : msg_sender env = owner s) :
  exists s1,
    transact env (CallTransferOwnership newOwner) s = (Success, s1) /\
    s1 = log (OwnershipTransferred (owner s) newOwner) (set_owner newOwner s) /\
    owner s1 = newOwner /\
    (forall q, isProviderAt s1 q = isProviderAt s q) /\
    (newOwner <> owner s ->
     forall env' c, msg_sender env' = owner s -> ownerOnly c = true ->
       transact env' c s1 = (Failure NotOwner, s1)).
Proof.
  exists (log (OwnershipTransferred (owner s) newOwner) (set_owner newOwner s)).
  split; [| split; [reflexivity | split; [reflexivity | split; [reflexivity |]]]].
  - unfold transact, execute, dispatch, transferOwnership, bind.
    rewrite onlyOwner_pass by assumption. reflexivity.
  - intros Hne env' c Hsender Hc. apply ownerOnly_rejects; [| assumption].
    cbn. rewrite Hsender. congruence.
Qed.

Lemma transferOwnership_hands_over_witness :
  owner sTransferred = bob /\
  isProviderAt sTransferred alice = true /\
  isProviderAt sTransferred bob = false /\
  transact (fhe := demoPlatform) (by_ alice 2000) CallPause sTransferred
    = (Failure NotOwner, sTransferred).
Proof.
  destruct (transferOwnership_hands_over (fhe := demoPlatform) (by_ alice 1200) bob
              sDeployed eq_refl) as (s1 & Hrun & _ & Hnew & Hprov & Hold).
  assert (s1 = sTransferred) as -> by (unfold sTransferred; rewrite Hrun; reflexivity).
  split; [exact Hnew |].
  split; [rewrite Hprov; reflexivity |].
  split; [rewrite Hprov; reflexivity |].
  apply Hold; [vm_compute; discriminate | reflexivity | reflexivity].
Defined.

(** Whoever is not the owner cannot change what the owner configures: after
    any call of theirs, failed or not, the owner, the providers, the pause
    flag and the cooldown are what they were. *)
Theorem admin_config_protected {fhe : Platform} (env : Env) (c : Call) (s : State)
    (Hne : msg_sender env <> owner s) :
  adminConfig (snd (transact env c s)) = adminConfig s.
Proof.
  destruct (ownerOnly c) eqn:Hc.
  - rewrite ownerOnly_rejects by assumption. reflexivity.
  - destruct c; try discriminate Hc.
    + rewrite submitAttestation_run. cbn zeta. sol_cases; reflexivity.
    + rewrite myCallback_run. sol_cases; reflexivity.
Qed.

Lemma admin_config_protected_witness :
  adminConfig
    (snd (transact (fhe := demoPlatform) (by_ bob 5000)
            (CallMyCallback requestR cleartext7 [x01]) sRequested))
    = adminConfig sRequested /\
  adminConfig
    (snd (transact (fhe := demoPlatform) (by_ bob 5000) (CallSetCooldownSeconds 1)
            sRequested))
    = adminConfig sRequested.
Proof.
  assert (Hne : msg_sender (by_ bob 5000) <> owner sRequested)
    by (vm_compute; discriminate).
  split; apply (admin_config_protected (fhe := demoPlatform)); exact Hne.
Defined.

(** *** Pause switch *)

(** For the owner: pausing a paused contract fails with PausedError and
    pausing an unpaused one sets the flag; unpausing succeeds whether or not
    the contract is paused, and logs Unpaused each time. *)
Theorem pause_unpause_outcomes {fhe : Platform} (env : Env) (s : State)
    (Hown : msg_sender env = owner s) :
  (paused s = true -> transact env CallPause s = (Failure PausedError, s)) /\
  (paused s = false ->
   transact env CallPause s = (Success, log (Paused (msg_sender env)) (set_paused true s))) /\
  transact env CallUnpause s =
    (Success, log (Unpaused (msg_sender env)) (set_paused false s)) /\
  paused (snd (transact env CallUnpause s)) = false.
Proof.
  unfold transact, execute, dispatch, pause, unpause, bind.
  rewrite !onlyOwner_pass by assumption. rewrite whenNotPaused_run.
  repeat split.
  - intros ->. reflexivity.
  - intros ->. reflexivity.
Qed.

Lemma pause_unpause_outcomes_witness :
  transact (fhe := demoPlatform) (by_ alice 1600) CallPause sPaused
    = (Failure PausedError, sPaused) /\
  fst (transact (fhe := demoPlatform) (by_ alice 1600) CallUnpause sDeployed) = Success.
Proof.
  split.
  - apply (pause_unpause_outcomes (fhe := demoPlatform) (by_ alice 1600) sPaused eq_refl).
    reflexivity.
  - destruct (pause_unpause_outcomes (fhe := demoPlatform) (by_ alice 1600) sDeployed
                eq_refl) as (_ & _ & Hun & _).
    rewrite Hun. reflexivity.
Defined.

(** Pausing and unpausing gives back the storage of before, log apart: a
    submit that would succeed fails with PausedError between the two calls
    and succeeds after them, logged against the same batch. *)
Theorem pause_then_unpause {fhe : Platform}
    (envP envU envS : Env) (x : euint32) (s : State)
    (HownP : msg_sender envP = owner s) (HownU : msg_sender envU = owner s)
    (Hgates : submitGates envS x s)
    (Hact : active (batchAt s (currentBatchId s)) = true) :
  let s1 := snd (transact envP CallPause s) in
  let s2 := snd (transact envU CallUnpause s1) in
  transact envS (CallSubmitAttestation x) s1 = (Failure PausedError, s1) /\
  with_events (events s) s2 = s /\
  transact envS (CallSubmitAttestation x) s2 = (Success, submitted envS x s2) /\
  currentBatchId s2 = currentBatchId s.
Proof.
  destruct Hgates as (Hprov & Hpause & Hcool & Hinit).
  assert (H1 : transact envP CallPause s = (Success, log (Paused (msg_sender envP)) (set_paused true s))).
  { unfold transact, execute, dispatch, pause, bind.
    rewrite onlyOwner_pass by assumption. rewrite whenNotPaused_run, Hpause. reflexivity. }
  rewrite H1. cbn [snd].
  assert (H2 : transact envU CallUnpause (log (Paused (msg_sender envP)) (set_paused true s))
               = (Success, log (Unpaused (msg_sender envU))
                             (set_paused false (log (Paused (msg_sender envP)) (set_paused true s))))).
  { unfold transact, execute, dispatch, unpause, bind.
    rewrite onlyOwner_pass by assumption. reflexivity. }
  rewrite H2. cbn [snd].
  split; [| split; [| split]].
  - rewrite submitAttestation_run. cbn zeta.
    change (isProviderAt (log (Paused (msg_sender envP)) (set_paused true s)) (msg_sender envS))
      with (isProviderAt s (msg_sender envS)).
    rewrite Hprov. reflexivity.
  - destruct s. cbn in *. subst. reflexivity.
  - apply submitAttestation_ok; [| exact Hact].
    unfold submitGates, cooldownElapsed, isProviderAt, lastSubmissionTimeAt in *.
    cbn. tauto.
  - reflexivity.
Qed.

Lemma pause_then_unpause_witness :
  transact (fhe := demoPlatform) (by_ alice 2000) (CallSubmitAttestation 7) sPaused
    = (Failure PausedError, sPaused) /\
  fst (transact (fhe := demoPlatform) (by_ alice 2000) (CallSubmitAttestation 7)
         (snd (transact (fhe := demoPlatform) (by_ alice 1700) CallUnpause sPaused)))
    = Success.
Proof.
  assert (Hgates : submitGates (fhe := demoPlatform) (by_ alice 2000) 7 sDeployed).
  { repeat split; vm_compute; try reflexivity; discriminate. }
  destruct (pause_then_unpause (fhe := demoPlatform) (by_ alice 1500) (by_ alice 1700)
              (by_ alice 2000) 7 sDeployed eq_refl eq_refl Hgates eq_refl)
    as (Hblocked & _ & Hagain & _).
  split; [exact Hblocked |].
  unfold sPaused. rewrite Hagain. reflexivity.
Defined.

(** *** Cooldown *)

Lemma cooldownSeconds_transact {fhe : Platform} (env : Env) (c : Call) (s : State) :
  0 < cooldownSeconds s -> 0 < cooldownSeconds (snd (transact env c s)).
Proof.
  intros Hpos. destruct c.
  all: sol_run; unfold checked_add, ret, revert; sol_cases; try assumption.
  match goal with H : (_ >? 0) = true |- _ => apply Z.gtb_lt in H; exact H end.
Qed.

(** The cooldown is positive in every state the contract can reach: it
    starts at 60, and [setCooldownSeconds] refuses zero with the message
    "Cooldown must be positive" whoever the owner is. *)
Theorem cooldown_always_positive {fhe : Platform} (s : State) (Hreach : reachable s) :
  0 < cooldownSeconds s /\
  forall env, msg_sender env = owner s ->
    transact env (CallSetCooldownSeconds 0) s =
      (Failure (ErrorString "Cooldown must be positive"), s).
Proof.
  split.
  - induction Hreach as [env s Hdep | env c s Hreach IH].
    + rewrite deploy_result in Hdep. injection Hdep as <-. reflexivity.
    + apply cooldownSeconds_transact. assumption.
  - intros env Hown. unfold transact, execute, dispatch, setCooldownSeconds, bind.
    rewrite onlyOwner_pass by assumption. reflexivity.
Qed.

Lemma cooldown_always_positive_witness :
  0 < cooldownSeconds sHugeCooldown /\
  transact (fhe := demoPlatform) (by_ alice 2600) (CallSetCooldownSeconds 0) sHugeCooldown
    = (Failure (ErrorString "Cooldown must be positive"), sHugeCooldown).
Proof.
  assert (Hreach : reachable (fhe := demoPlatform) sHugeCooldown)
    by (apply reachable_transact, reachable_sSubmitted).
  destruct (cooldown_always_positive (fhe := demoPlatform) sHugeCooldown Hreach)
    as (Hpos & Hzero).
  split; [exact Hpos | apply Hzero; reflexivity].
Defined.

(** [submitAttestation] reports the first check that fails, in the order
    provider, pause, cooldown, handle: a caller who is no provider gets
    NotProvider even when the contract is paused; a provider gets PausedError
    even inside the cooldown window; inside the window a provider gets
    CooldownActive even for an uninitialised handle; and an uninitialised
    handle that reaches the body is refused with the message
    "FHE value not initialized". *)
Theorem submitAttestation_gate_order {fhe : Platform} (env : Env) (x : euint32) (s : State) :
  (isProviderAt s (msg_sender env) = false ->
   transact env (CallSubmitAttestation x) s = (Failure NotProvider, s)) /\
  (isProviderAt s (msg_sender env) = true -> paused s = true ->
   transact env (CallSubmitAttestation x) s = (Failure PausedError, s)) /\
  (isProviderAt s (msg_sender env) = true -> paused s = false ->
   lastSubmissionTimeAt s (msg_sender env) + cooldownSeconds s <= max_uint256 ->
   block_timestamp env < lastSubmissionTimeAt s (msg_sender env) + cooldownSeconds s ->
   transact env (CallSubmitAttestation x) s = (Failure CooldownActive, s)) /\
  (isProviderAt s (msg_sender env) = true -> paused s = false ->
   cooldownElapsed env s -> isInitialized x = false ->
   transact env (CallSubmitAttestation x) s =
     (Failure (ErrorString "FHE value not initialized"), s)).
Proof.
  rewrite submitAttestation_run. cbn zeta.
  split; [| split; [| split]].
  - intros ->. reflexivity.
  - intros -> ->. reflexivity.
  - intros -> -> Hmax Hlt. cbn.
    destruct (Z.leb_spec (lastSubmissionTimeAt s (msg_sender env) + cooldownSeconds s)
                max_uint256); [| lia]. cbn.
    destruct (Z.ltb_spec (block_timestamp env)
                (lastSubmissionTimeAt s (msg_sender env) + cooldownSeconds s));
      [reflexivity | lia].
  - intros -> -> [Hmax Hle] ->. cbn.
    destruct (Z.leb_spec (lastSubmissionTimeAt s (msg_sender env) + cooldownSeconds s)
                max_uint256); [| lia]. cbn.
    destruct (Z.ltb_spec (block_timestamp env)
                (lastSubmissionTimeAt s (msg_sender env) + cooldownSeconds s));
      [lia | reflexivity].
Qed.

Lemma submitAttestation_gate_order_witness :
  transact (fhe := demoPlatform) (by_ bob 2000) (CallSubmitAttestation 7) sPaused
    = (Failure NotProvider, sPaused) /\
  transact (fhe := demoPlatform) (by_ alice 2010) (CallSubmitAttestation 0) sSubmitted
    = (Failure CooldownActive, sSubmitted) /\
  transact (fhe := demoPlatform) (by_ alice 2000) (CallSubmitAttestation 0) sDeployed
    = (Failure (ErrorString "FHE value not initialized"), sDeployed).
Proof.
  split; [| split].
  - apply (submitAttestation_gate_order (fhe := demoPlatform) (by_ bob 2000) 7 sPaused).
    reflexivity.
  - apply (submitAttestation_gate_order (fhe := demoPlatform) (by_ alice 2010) 0 sSubmitted);
      vm_compute; try reflexivity; discriminate.
  - apply (submitAttestation_gate_order (fhe := demoPlatform) (by_ alice 2000) 0 sDeployed);
      try reflexivity.
    split; vm_compute; discriminate.
Defined.

Lemma lastSubmissionTimeAt_submitted {fhe : Platform} (env : Env) (x : euint32)
    (s : State) (a : address) :
  lastSubmissionTimeAt (submitted env x s) a =
  if decide (msg_sender env = a) then block_timestamp env else lastSubmissionTimeAt s a.
Proof.
  unfold lastSubmissionTimeAt. cbn. destruct (decide (msg_sender env = a)) as [-> | Hne].
  - rewrite lookup_insert_eq. reflexivity.
  - rewrite lookup_insert_ne by assumption. reflexivity.
Qed.

(** After a submit at time [t], the same provider is refused with
    CooldownActive at every time before [t + cooldownSeconds] and accepted
    again from [t + cooldownSeconds] on. *)
Theorem submit_cooldown_window {fhe : Platform}
    (env env' : Env) (x y : euint32) (s : State)
    (Hgates : submitGates env x s)
    (Hact : active (batchAt s (currentBatchId s)) = true)
    (Hsame : msg_sender env' = msg_sender env)
    (Hmax : block_timestamp env + cooldownSeconds s <= max_uint256) :
  exists s1,
    transact env (CallSubmitAttestation x) s = (Success, s1) /\
    (block_timestamp env' < block_timestamp env + cooldownSeconds s ->
     transact env' (CallSubmitAttestation y) s1 = (Failure CooldownActive, s1)) /\
    (block_timestamp env + cooldownSeconds s <= block_timestamp env' ->
     isInitialized y = true ->
     exists s2, transact env' (CallSubmitAttestation y) s1 = (Success, s2)).
Proof.
  exists (submitted env x s).
  split; [apply submitAttestation_ok; assumption |].
  destruct Hgates as (Hprov & Hpause & Hcool & Hinit).
  assert (Hlast : lastSubmissionTimeAt (submitted env x s) (msg_sender env')
                  = block_timestamp env).
  { rewrite lastSubmissionTimeAt_submitted, Hsame.
    destruct (decide (msg_sender env = msg_sender env)); [reflexivity | contradiction]. }
  assert (Hprov' : isProviderAt (submitted env x s) (msg_sender env') = true)
    by (rewrite Hsame; exact Hprov).
  split.
  - intros Hlt. rewrite submitAttestation_run. cbn zeta.
    rewrite Hprov', Hlast.
    change (paused (submitted env x s)) with (paused s).
    change (cooldownSeconds (submitted env x s)) with (cooldownSeconds s).
    rewrite Hpause. cbn.
    destruct (Z.leb_spec (block_timestamp env + cooldownSeconds s) max_uint256); [| lia].
    cbn.
    destruct (Z.ltb_spec (block_timestamp env') (block_timestamp env + cooldownSeconds s));
      [reflexivity | lia].
  - intros Hle Hy. exists (submitted env' y (submitted env x s)).
    apply submitAttestation_ok; [| exact Hact].
    split; [exact Hprov' | split; [exact Hpause | split; [| exact Hy]]].
    unfold cooldownElapsed. rewrite Hlast. split; assumption.
Qed.

Lemma submit_cooldown_window_witness :
  transact (fhe := demoPlatform) (by_ alice 2000) (CallSubmitAttestation 7) sDeployed
    = (Success, sSubmitted) /\
  transact (fhe := demoPlatform) (by_ alice 2059) (CallSubmitAttestation 8) sSubmitted
    = (Failure CooldownActive, sSubmitted) /\
  fst (transact (fhe := demoPlatform) (by_ alice 2060) (CallSubmitAttestation 8) sSubmitted)
    = Success.
Proof.
  assert (Hgates : submitGates (fhe := demoPlatform) (by_ alice 2000) 7 sDeployed).
  { repeat split; vm_compute; try reflexivity; discriminate. }
  assert (Hmax : block_timestamp (by_ alice 2000) + cooldownSeconds sDeployed <= max_uint256)
    by (vm_compute; discriminate).
  split; [| split].
  - vm_compute. reflexivity.
  - destruct (submit_cooldown_window (fhe := demoPlatform) (by_ alice 2000) (by_ alice 2059)
                7 8 sDeployed Hgates eq_refl eq_refl Hmax) as (s1 & Hrun & Hin & _).
    assert (s1 = sSubmitted) as -> by (unfold sSubmitted; rewrite Hrun; reflexivity).
    apply Hin. vm_compute. reflexivity.
  - destruct (submit_cooldown_window (fhe := demoPlatform) (by_ alice 2000) (by_ alice 2060)
                7 8 sDeployed Hgates eq_refl eq_refl Hmax) as (s1 & Hrun & _ & Hout).
    assert (s1 = sSubmitted) as -> by (unfold sSubmitted; rewrite Hrun; reflexivity).
    destruct Hout as (s2 & Hok); [vm_compute; discriminate | reflexivity |].
    rewrite Hok. reflexivity.
Defined.

(** The cooldown is kept per address: a submit of one provider leaves the
    outcome of any submit of another address what it would have been. *)
Theorem cooldown_per_principal {fhe : Platform}
    (envA envB : Env) (x y : euint32) (s : State)
    (Hne : msg_sender envB <> msg_sender envA) :
  fst (transact envB (CallSubmitAttestation y) (snd (transact envA (CallSubmitAttestation x) s)))
  = fst (transact envB (CallSubmitAttestation y) s).
Proof.
  rewrite (submitAttestation_run envA x s). cbn zeta.
  repeat match goal with
  | |- context [if ?b then (_, _) else _] => destruct b; [reflexivity |]
  end.
  cbn [snd]. rewrite !submitAttestation_run. cbn zeta.
  rewrite lastSubmissionTimeAt_submitted.
  destruct (decide (msg_sender envA = msg_sender envB)); [congruence |].
  change (isProviderAt (submitted envA x s) (msg_sender envB))
    with (isProviderAt s (msg_sender envB)).
  change (paused (submitted envA x s)) with (paused s).
  change (cooldownSeconds (submitted envA x s)) with (cooldownSeconds s).
  change (batchAt (submitted envA x s) (currentBatchId (submitted envA x s)))
    with (batchAt s (currentBatchId s)).
  sol_cases; reflexivity.
Qed.

Lemma cooldown_per_principal_witness :
  fst (transact (fhe := demoPlatform) (by_ bob 2001) (CallSubmitAttestation 9)
         (snd (transact (fhe := demoPlatform) (by_ alice 2000) (CallSubmitAttestation 7)
                 sBobAdded)))
  = Success.
Proof.
  rewrite (cooldown_per_principal (fhe := demoPlatform) (by_ alice 2000) (by_ bob 2001)
             7 9 sBobAdded); [reflexivity |].
  vm_compute. discriminate.
Defined.

(** When the caller's last submission time plus the cooldown exceeds the
    largest uint256, the gate itself reverts: a provider's submit and the
    owner's validation request fail with Panic(0x11) at every timestamp, and
    not with CooldownActive. *)
Theorem cooldown_overflow_panics {fhe : Platform} (env : Env) (s : State)
    (Hpause : paused s = false)
    (Hover : max_uint256 < lastSubmissionTimeAt s (msg_sender env) + cooldownSeconds s) :
  (isProviderAt s (msg_sender env) = true ->
   forall x, transact env (CallSubmitAttestation x) s = (Failure (Panic 17), s)) /\
  (msg_sender env = owner s ->
   forall b, transact env (CallRequestBatchValidation b) s = (Failure (Panic 17), s)).
Proof.
  split.
  - intros Hprov x. rewrite submitAttestation_run. cbn zeta.
    rewrite Hprov, Hpause. cbn.
    destruct (Z.leb_spec (lastSubmissionTimeAt s (msg_sender env) + cooldownSeconds s)
                max_uint256); [lia | reflexivity].
  - intros Hown b. rewrite requestBatchValidation_full_run. cbn zeta.
    rewrite Hown at 1. rewrite Z.eqb_refl, Hpause. cbn.
    destruct (Z.leb_spec (lastSubmissionTimeAt s (msg_sender env) + cooldownSeconds s)
                max_uint256); [lia | reflexivity].
Qed.

Lemma cooldown_overflow_panics_witness :
  cooldownSeconds sHugeCooldown = max_uint256 /\
  transact (fhe := demoPlatform) (by_ alice max_uint256) (CallSubmitAttestation 8)
    sHugeCooldown = (Failure (Panic 17), sHugeCooldown).
Proof.
  split; [reflexivity |].
  apply (cooldown_overflow_panics (fhe := demoPlatform) (by_ alice max_uint256)
           sHugeCooldown); [reflexivity | vm_compute; reflexivity | reflexivity].
Defined.

(** *** Batch ledger *)

Lemma ledger_step {fhe : Platform} (env : Env) (c : Call) (s : State) :
  currentBatchId s <= currentBatchId (snd (transact env c s)) /\
  forall i, i < currentBatchId s ->
    batches (snd (transact env c s)) !! i = batches s !! i.
Proof.
  destruct c;
    try (match goal with |- context [transact env ?c s] =>
           pose proof (ledger_frame env c s ltac:(discriminate)) as Hframe end;
         unfold ledger in Hframe; injection Hframe as Hcur Hbat _;
         rewrite Hcur, Hbat; split; [lia | reflexivity]).
  destruct (closeCurrentBatch_cases env s) as [[_ Hok] | [e Hfail]].
  - rewrite Hok. cbn. split; [lia |].
    intros i Hi. rewrite !lookup_insert_ne by lia. reflexivity.
  - rewrite Hfail. cbn. split; [lia | reflexivity].
Qed.

Lemma run_cons {fhe : Platform} (env : Env) (c : Call) (txs : list (Env * Call)) (s : State) :
  run ((env, c) :: txs) s = run txs (snd (transact env c s)).
Proof. reflexivity. Qed.

(** The current batch id never decreases, and no transaction ever rewrites
    a batch below the current id: once closed, a batch keeps its id, its
    times and its inactive flag through any run of calls. *)
Theorem closed_batches_immutable {fhe : Platform} (txs : list (Env * Call)) (s : State) :
  currentBatchId s <= currentBatchId (run txs s) /\
  forall i, i < currentBatchId s -> batchAt (run txs s) i = batchAt s i.
Proof.
  revert s. induction txs as [| [env c] txs IH]; intros s.
  - split; [cbn; lia | reflexivity].
  - rewrite run_cons. destruct (ledger_step env c s) as [Hle Hsame].
    destruct (IH (snd (transact env c s))) as [Hle' Hsame'].
    split; [lia |].
    intros i Hi. rewrite Hsame' by lia. unfold batchAt. rewrite Hsame by lia.
    reflexivity.
Qed.

Lemma closedIds_frame {fhe : Platform} (env : Env) (c : Call) (s : State) :
  c <> CallCloseCurrentBatch ->
  closedIds (events (snd (transact env c s))) = closedIds (events s).
Proof.
  intros Hc. destruct c; try contradiction; clear Hc.
  all: sol_run; unfold checked_add, ret, revert; sol_cases; try reflexivity.
  all: unfold closedIds; cbn; rewrite ?omap_app; cbn;
    rewrite ?app_nil_r; reflexivity.
Qed.

Lemma ledgerHistory_closedAndOpened {fhe : Platform} (env : Env) (s : State) :
  batchInvariant s -> ledgerHistory s -> ledgerHistory (closedAndOpened env s).
Proof.
  intros [H1 _ _ _ _] [Hopen Hclosed Hlog].
  split; cbn.
  - unfold batchAt. cbn. rewrite lookup_insert_eq. reflexivity.
  - intros i Hi. unfold batchAt. cbn.
    rewrite (lookup_insert_ne _ (currentBatchId s + 1) i) by lia.
    destruct (decide (i = currentBatchId s)) as [-> | Hne].
    + rewrite !lookup_insert_eq. cbn. split; reflexivity.
    + rewrite (lookup_insert_ne _ (currentBatchId s) i) by congruence.
      rewrite (lookup_insert_ne _ (currentBatchId s + 1) (i + 1)) by lia.
      destruct (Hclosed i ltac:(lia)) as [Hact Htime]. unfold batchAt in Hact, Htime.
      split; [exact Hact |].
      destruct (decide (i + 1 = currentBatchId s)) as [Heq | Hne'].
      * rewrite Heq in *. rewrite lookup_insert_eq. cbn. exact Htime.
      * rewrite lookup_insert_ne by congruence. exact Htime.
  - unfold closedIds in *. rewrite omap_app, Hlog. cbn.
    replace (currentBatchId s + 1 - 1) with ((currentBatchId s - 1) + 1) by lia.
    rewrite (seqZ_app 1 (currentBatchId s - 1) 1) by lia.
    replace (1 + (currentBatchId s - 1)) with (currentBatchId s) by lia.
    reflexivity.
Qed.

Lemma ledgerHistory_transact {fhe : Platform} (env : Env) (c : Call) (s : State) :
  batchInvariant s -> ledgerHistory s -> ledgerHistory (snd (transact env c s)).
Proof.
  intros Hinv Hhist.
  destruct c;
    try (match goal with |- context [transact env ?c s] =>
           pose proof (ledger_frame env c s ltac:(discriminate)) as Hframe;
           pose proof (closedIds_frame env c s ltac:(discriminate)) as Hclosed end;
         unfold ledger in Hframe; injection Hframe as Hcur Hbat _;
         destruct Hhist as [H1 H2 H3];
         split; unfold batchAt in *; rewrite ?Hcur, ?Hbat, ?Hclosed; assumption).
  destruct (closeCurrentBatch_cases env s) as [[_ Hok] | [e Hfail]].
  - rewrite Hok. cbn. apply ledgerHistory_closedAndOpened; assumption.
  - rewrite Hfail. assumption.
Qed.

(** In every state the contract can reach the current batch has no closing
    time, every batch below it is inactive and was closed at the very time
    its successor was created, and the log holds one BatchClosed for each of
    them, in order. *)
Theorem ledger_history {fhe : Platform} (s : State) (Hreach : reachable s) :
  ledgerHistory s.
Proof.
  induction Hreach as [env s Hdep | env c s Hreach IH].
  - rewrite deploy_result in Hdep. injection Hdep as <-.
    split; cbn.
    + unfold batchAt. cbn. rewrite lookup_insert_eq. reflexivity.
    + intros i Hi. lia.
    + reflexivity.
  - apply ledgerHistory_transact; [apply reachable_batchInvariant |]; assumption.
Qed.

Lemma ledger_history_witness :
  closedAt (batchAt sClosed 2) = 0 /\
  closedAt (batchAt sClosed 1) = createdAt (batchAt sClosed 2) /\
  closedIds (events sClosed) = [1].
Proof.
  destruct (ledger_history (fhe := demoPlatform) sClosed reachable_sClosed)
    as [Hopen Hclosed Hlog].
  split; [exact Hopen |].
  split; [apply (Hclosed 1); vm_compute; split; [discriminate | reflexivity] | exact Hlog].
Defined.

Lemma batchCiphertexts_step {fhe : Platform} (env : Env) (c : Call) (s : State) (b : uint256) :
  b < currentBatchId s ->
  batchCiphertexts (snd (transact env c s)) b = batchCiphertexts s b.
Proof.
  intros Hb. destruct c.
  all: sol_run; unfold checked_add, ret, revert; sol_cases; try reflexivity.
  all: unfold batchCiphertexts; cbn; rewrite ?omap_app; cbn;
    rewrite ?app_nil_r; try reflexivity.
  destruct (Z.eqb_spec (currentBatchId s) b); [lia |].
  rewrite app_nil_r. reflexivity.
Qed.

(** The submissions logged for a batch below the current id never change:
    whatever calls follow, no submission is ever added to a closed batch. *)
Theorem closed_batch_submissions_frozen {fhe : Platform}
    (txs : list (Env * Call)) (s : State) (b : uint256)
    (Hb : b < currentBatchId s) :
  batchCiphertexts (run txs s) b = batchCiphertexts s b.
Proof.
  revert s Hb. induction txs as [| [env c] txs IH]; intros s Hb.
  - reflexivity.
  - rewrite run_cons, IH.
    + apply batchCiphertexts_step. assumption.
    + pose proof (ledger_step env c s) as [Hle _]. lia.
Qed.

Lemma closed_batch_submissions_frozen_witness :
  batchCiphertexts
    (run (fhe := demoPlatform)
       [(by_ alice 3100, CallSubmitAttestation 8); (by_ alice 3200, CallSubmitAttestation 9)]
       sClosed) 1 = [7] /\
  batchCiphertexts
    (run (fhe := demoPlatform)
       [(by_ alice 3100, CallSubmitAttestation 8); (by_ alice 3200, CallSubmitAttestation 9)]
       sClosed) 2 = [8; 9].
Proof.
  split; [| vm_compute; reflexivity].
  rewrite (closed_batch_submissions_frozen (fhe := demoPlatform) _ sClosed 1);
    [reflexivity | vm_compute; reflexivity].
Defined.

Lemma closed_batches_immutable_witness :
  batchAt
    (run (fhe := demoPlatform)
       [(by_ alice 3100, CallSubmitAttestation 8); (by_ alice 3200, CallCloseCurrentBatch)]
       sClosed) 1 = mkBatch 1 false 1000 3000.
Proof.
  rewrite (proj2 (closed_batches_immutable (fhe := demoPlatform) _ sClosed) 1);
    [reflexivity | vm_compute; reflexivity].
Defined.

(** *** Submissions *)

Lemma submissionsWellFormed_transact {fhe : Platform} (env : Env) (c : Call) (s : State) :
  batchInvariant s -> submissionsWellFormed s ->
  submissionsWellFormed (snd (transact env c s)).
Proof.
  intros [[Hcur _] _ _ _ _] Hwf. destruct c.
  all: sol_run; unfold checked_add, ret, revert; sol_cases; try exact Hwf.
  all: intros p b h Hin; cbn in Hin |- *;
    repeat (rewrite in_app_iff in Hin; cbn in Hin);
    decompose [or] Hin; clear Hin; try discriminate; try contradiction;
    try (match goal with H : In _ (events _) |- _ =>
           destruct (Hwf _ _ _ H) as [Hb Hx]; split; [lia | exact Hx] end).
  match goal with H : AttestationSubmitted _ _ _ = AttestationSubmitted _ _ _ |- _ =>
    injection H as <- <- <- end.
  split; [lia |]. exists encryptedData. split; [reflexivity |].
  match goal with H : negb (isInitialized _) = false |- _ =>
    apply negb_false_iff in H; exact H end.
Qed.

(** Every submission the log of a reachable state records names a batch the
    contract had opened, between 1 and the current id, and carries the
    conversion of a handle the coprocessor reports initialised. *)
Theorem logged_submissions_well_formed {fhe : Platform} (s : State)
    (Hreach : reachable s) :
  submissionsWellFormed s.
Proof.
  induction Hreach as [env s Hdep | env c s Hreach IH].
  - rewrite deploy_result in Hdep. injection Hdep as <-.
    intros p b h Hin. cbn in Hin. decompose [or] Hin; try discriminate; contradiction.
  - apply submissionsWellFormed_transact; [apply reachable_batchInvariant |]; assumption.
Qed.

Lemma logged_submissions_well_formed_witness :
  In (AttestationSubmitted alice 1 7) (events sRequested) /\
  1 <= 1 <= currentBatchId sRequested.
Proof.
  assert (Hin : In (AttestationSubmitted alice 1 7) (events sRequested))
    by (vm_compute; tauto).
  split; [exact Hin |].
  exact (proj1 (logged_submissions_well_formed (fhe := demoPlatform) sRequested
                  reachable_sRequested alice 1 7 Hin)).
Defined.

(** *** Decryption requests *)

Lemma contextAt_set (r r' : uint256) (c : DecryptionContext) (s : State) :
  contextAt (set_context r c s) r' = if decide (r = r') then c else contextAt s r'.
Proof.
  unfold contextAt. cbn. destruct (decide (r = r')) as [-> | Hne].
  - rewrite lookup_insert_eq. reflexivity.
  - rewrite lookup_insert_ne by assumption. reflexivity.
Qed.

Lemma requestsValid_transact {fhe : Platform} (env : Env) (c : Call) (s : State) :
  placeholderHash <> 0 ->
  batchInvariant s -> requestsValid s -> requestsValid (snd (transact env c s)).
Proof.
  intros Hnz Hinv Hvalid. destruct c.
  1-6, 8: sol_run; unfold checked_add, ret, revert; sol_cases; exact Hvalid.
  - destruct (closeCurrentBatch_cases env s) as [[_ Hok] | [e Hfail]].
    + rewrite Hok. cbn [snd]. intros r ctx Hctx.
      destruct (Hvalid r ctx Hctx) as [Hb Hclosed].
      split; [cbn; lia |].
      unfold batchAt in *. cbn. rewrite !lookup_insert_ne by lia. exact Hclosed.
    + rewrite Hfail. exact Hvalid.
  - rewrite requestBatchValidation_full_run. cbn zeta.
    repeat match goal with
    | |- context [if ?b then (Failure _, _) else _] => destruct b eqn:?; [exact Hvalid |]
    end.
    cbn [snd]. intros r ctx. unfold requested. cbn.
    destruct (decide (oracle_requestId env = r)) as [-> | Hne].
    + rewrite lookup_insert_eq. intros [= <-]. cbn.
      match goal with H : _ || _ || _ = false |- _ =>
        apply orb_false_iff in H; destruct H as [H Hc];
        apply orb_false_iff in H; destruct H as [Hz Hge] end.
      apply Z.eqb_neq in Hz, Hc. rewrite Z.geb_leb in Hge. apply Z.leb_gt in Hge.
      assert (1 <= batch <= currentBatchId s).
      { destruct (decide (1 <= batch <= currentBatchId s)) as [Hin | Hout];
          [exact Hin |].
        exfalso. apply Hc. unfold batchAt.
        rewrite (inv_unused s Hinv batch Hout). reflexivity. }
      split; [lia | exact Hc].
    + rewrite lookup_insert_ne by assumption. apply Hvalid.
  - rewrite myCallback_run.
    repeat match goal with
    | |- context [if ?b then (Failure _, _) else _] => destruct b eqn:?; [exact Hvalid |]
    end.
    destruct (checkSignatures requestId cleartexts proof); [| exact Hvalid].
    destruct (negb (Z.of_nat (length cleartexts) =? 32)); [exact Hvalid |].
    cbn [snd]. intros r ctx. unfold completed. cbn.
    destruct (decide (requestId = r)) as [-> | Hne].
    + rewrite lookup_insert_eq. intros [= <-]. cbn.
      destruct (decryptionContexts s !! r) as [ctx0 |] eqn:Hctx0.
      * unfold contextAt. rewrite Hctx0. cbn. apply (Hvalid r ctx0 Hctx0).
      * exfalso. unfold contextAt in *. rewrite Hctx0 in *. cbn in *.
        match goal with H : negb (placeholderHash =? 0) = false |- _ =>
          apply negb_false_iff, Z.eqb_eq in H; contradiction end.
    + rewrite lookup_insert_ne by assumption. apply Hvalid.
Qed.

(** When the hash of the placeholder list is not zero, every request stored
    in a reachable state names a batch between 1 and the current id,
    exclusive of the current one, whose closing time is set: requests exist
    for closed batches only. *)
Theorem requests_name_closed_batches {fhe : Platform} (s : State)
    (Hnz : placeholderHash <> 0) (Hreach : reachable s) :
  requestsValid s.
Proof.
  induction Hreach as [env s Hdep | env c s Hreach IH].
  - rewrite deploy_result in Hdep. injection Hdep as <-.
    intros r ctx. cbn. rewrite lookup_empty. discriminate.
  - apply requestsValid_transact; [assumption | apply reachable_batchInvariant |];
      assumption.
Qed.

Lemma requests_name_closed_batches_witness :
  decryptionContexts sCompleted !! requestR = Some (mkDecryptionContext 1 127504 true) /\
  1 <= 1 < currentBatchId sCompleted /\
  closedAt (batchAt sCompleted 1) <> 0.
Proof.
  assert (Hnz : placeholderHash (fhe := demoPlatform) <> 0) by (vm_compute; discriminate).
  assert (Hreach : reachable (fhe := demoPlatform) sCompleted)
    by (apply reachable_transact, reachable_sRequested).
  split; [reflexivity |].
  exact (requests_name_closed_batches (fhe := demoPlatform) sCompleted Hnz Hreach
           requestR (mkDecryptionContext 1 127504 true) eq_refl).
Defined.

(** A validation request that passes its checks is stored under whatever
    identifier the bridge returns, over anything stored there before: the
    record reads as unprocessed again, no other identifier is touched, and
    a callback with an accepted proof for that identifier succeeds even if
    the earlier request under it had been processed. *)
Theorem request_overwrites_identifier {fhe : Platform}
    (env : Env) (b : uint256) (s : State)
    (Hgates : requestGates env s) (Hvalid : ~ invalidBatch s b) :
  exists s1,
    transact env (CallRequestBatchValidation b) s = (Success, s1) /\
    contextAt s1 (oracle_requestId env) = mkDecryptionContext b placeholderHash false /\
    (forall r, r <> oracle_requestId env -> contextAt s1 r = contextAt s r) /\
    lastDecryptionRequestTimeAt s1 (msg_sender env) = block_timestamp env /\
    events s1 = events s ++ [DecryptionRequested (oracle_requestId env) b] /\
    (forall env' cleartexts proof,
       checkSignatures (oracle_requestId env) cleartexts proof = true ->
       length cleartexts = 32%nat ->
       fst (transact env' (CallMyCallback (oracle_requestId env) cleartexts proof) s1)
         = Success).
Proof.
  exists (requested env b s).
  assert (Hctx : contextAt (requested env b s) (oracle_requestId env)
                 = mkDecryptionContext b placeholderHash false).
  { unfold contextAt. cbn. rewrite lookup_insert_eq. reflexivity. }
  split; [| split; [exact Hctx | split; [| split; [| split; [reflexivity |]]]]].
  - rewrite requestBatchValidation_run by assumption.
    destruct ((b =? 0) || (b >=? currentBatchId s) || (closedAt (batchAt s b) =? 0)) eqn:Ht;
      [| reflexivity].
    apply invalidBatch_test in Ht. contradiction.
  - intros r Hr. unfold contextAt. cbn. rewrite lookup_insert_ne by congruence.
    reflexivity.
  - unfold lastDecryptionRequestTimeAt. cbn. rewrite lookup_insert_eq. reflexivity.
  - intros env' ct pf Hsig Hlen. rewrite myCallback_run, Hctx. cbn.
    rewrite Z.eqb_refl, Hsig, Hlen. reflexivity.
Qed.

Lemma request_overwrites_identifier_witness :
  processed (contextAt sCompleted requestR) = true /\
  exists s1,
    transact (fhe := demoPlatform) (by_ alice 6000) (CallRequestBatchValidation 1) sCompleted
      = (Success, s1) /\
    processed (contextAt s1 requestR) = false /\
    fst (transact (fhe := demoPlatform) (by_ bob 7000)
           (CallMyCallback requestR cleartext7 [x01]) s1) = Success.
Proof.
  split; [reflexivity |].
  assert (Hgates : requestGates (by_ alice 6000) sCompleted).
  { repeat split; vm_compute; try reflexivity; discriminate. }
  assert (Hvalid : ~ invalidBatch sCompleted 1).
  { intros [H | [H | H]]; vm_compute in H; try discriminate. apply H. reflexivity. }
  destruct (request_overwrites_identifier (fhe := demoPlatform) (by_ alice 6000) 1
              sCompleted Hgates Hvalid) as (s1 & Hrun & Hctx & _ & _ & _ & Hcb).
  exists s1. split; [exact Hrun |].
  split; [change (oracle_requestId (by_ alice 6000)) with requestR in Hctx;
          rewrite Hctx; reflexivity |].
  apply (Hcb (by_ bob 7000) cleartext7 [x01]); reflexivity.
Defined.

(** On a stored, unprocessed request of a reachable state the callback
    succeeds exactly when the proof is accepted and the cleartext is 32
    bytes long, and fails with DecryptionFailed otherwise; on success it
    sets the request's flag, keeps its batch id and hash, leaves every other
    request, the ledger and the owner's configuration alone, and logs
    DecryptionCompleted with the request's batch id and the cleartext word. *)
Theorem callback_outcome {fhe : Platform}
    (env : Env) (r : uint256) (cleartexts proof : bytes) (s : State)
    (ctx : DecryptionContext)
    (Hreach : reachable s)
    (Hctx : decryptionContexts s !! r = Some ctx)
    (Hproc : processed ctx = false) :
  let ok := checkSignatures r cleartexts proof && (Z.of_nat (length cleartexts) =? 32) in
  (ok = false ->
   transact env (CallMyCallback r cleartexts proof) s = (Failure DecryptionFailed, s)) /\
  (ok = true ->
   exists s1,
     transact env (CallMyCallback r cleartexts proof) s = (Success, s1) /\
     contextAt s1 r = mkDecryptionContext (batchId ctx) (stateHash ctx) true /\
     (forall r', r' <> r -> contextAt s1 r' = contextAt s r') /\
     events s1 = events s ++
       [DecryptionCompleted r (batchId ctx) (bytes32_of_bytes cleartexts)] /\
     ledger s1 = ledger s /\
     adminConfig s1 = adminConfig s).
Proof.
  pose proof (reachable_contextsPinned s Hreach r ctx Hctx) as Hpin.
  assert (Hat : contextAt s r = ctx) by (unfold contextAt; rewrite Hctx; reflexivity).
  cbn zeta. rewrite myCallback_run, Hat, Hproc, Hpin, Z.eqb_refl. cbn [negb].
  split.
  - intros Hok. apply andb_false_iff in Hok.
    destruct (checkSignatures r cleartexts proof); [| reflexivity].
    destruct Hok as [Hok | Hok]; [discriminate |]. rewrite Hok. reflexivity.
  - intros Hok. apply andb_true_iff in Hok. destruct Hok as [Hsig Hlen].
    rewrite Hsig, Hlen. cbn [negb].
    exists (completed r cleartexts s). split; [reflexivity |].
    unfold completed. rewrite Hat, Hpin.
    split; [| split; [| split; [reflexivity | split]]].
    + unfold contextAt. cbn. rewrite lookup_insert_eq. reflexivity.
    + intros r' Hr'. unfold contextAt. cbn. rewrite lookup_insert_ne by congruence.
      reflexivity.
    + unfold ledger, openedIds. cbn. rewrite omap_app. cbn. rewrite app_nil_r.
      reflexivity.
    + reflexivity.
Qed.

Lemma callback_outcome_witness :
  transact (fhe := demoPlatform) (by_ bob 5000)
    (CallMyCallback requestR cleartext7 [x02]) sRequested
    = (Failure DecryptionFailed, sRequested) /\
  transact (fhe := demoPlatform) (by_ bob 5000)
    (CallMyCallback requestR [x07] [x01]) sRequested
    = (Failure DecryptionFailed, sRequested) /\
  fst (transact (fhe := demoPlatform) (by_ bob 5000)
         (CallMyCallback requestR cleartext7 [x01]) sRequested) = Success.
Proof.
  split; [| split].
  - apply (callback_outcome (fhe := demoPlatform) (by_ bob 5000) requestR cleartext7 [x02]
             sRequested (mkDecryptionContext 1 127504 false) reachable_sRequested
             eq_refl eq_refl). reflexivity.
  - apply (callback_outcome (fhe := demoPlatform) (by_ bob 5000) requestR [x07] [x01]
             sRequested (mkDecryptionContext 1 127504 false) reachable_sRequested
             eq_refl eq_refl). reflexivity.
  - destruct (proj2 (callback_outcome (fhe := demoPlatform) (by_ bob 5000) requestR
                       cleartext7 [x01] sRequested (mkDecryptionContext 1 127504 false)
                       reachable_sRequested eq_refl eq_refl) eq_refl) as (s1 & Hrun & _).
    rewrite Hrun. reflexivity.
Defined.

Lemma completedIds_frame {fhe : Platform} (env : Env) (c : Call) (s : State) :
  (forall r ct pf, c <> CallMyCallback r ct pf) ->
  completedIds (events (snd (transact env c s))) = completedIds (events s).
Proof.
  intros Hc. destruct c; try (exfalso; eapply Hc; reflexivity); clear Hc.
  all: sol_run; unfold checked_add, ret, revert; sol_cases; try reflexivity.
  all: unfold completedIds; cbn; rewrite ?omap_app; cbn;
    rewrite ?app_nil_r; reflexivity.
Qed.

Lemma contexts_frame {fhe : Platform} (env : Env) (c : Call) (s : State) :
  (forall r ct pf, c <> CallMyCallback r ct pf) ->
  (forall b, c <> CallRequestBatchValidation b) ->
  decryptionContexts (snd (transact env c s)) = decryptionContexts s.
Proof.
  intros Hc Hc'.
  destruct c; try (exfalso; eapply Hc; reflexivity);
    try (exfalso; eapply Hc'; reflexivity); clear Hc Hc'.
  all: sol_run; unfold checked_add, ret, revert; sol_cases; reflexivity.
Qed.

Lemma completedOnce_transact {fhe : Platform} (env : Env) (c : Call) (s : State) :
  bridgeFresh env c s -> completedOnce s -> completedOnce (snd (transact env c s)).
Proof.
  intros Hfresh [Hnodup Hproc].
  destruct c.
  1-8: (split;
    [ rewrite completedIds_frame by discriminate; exact Hnodup
    | intros r; rewrite completedIds_frame by discriminate; intros Hin;
      unfold contextAt; rewrite contexts_frame by discriminate;
      apply Hproc; exact Hin ]).
  - cbn in Hfresh. split.
    + rewrite completedIds_frame by discriminate. exact Hnodup.
    + intros r. rewrite completedIds_frame by discriminate. intros Hin.
      rewrite requestBatchValidation_full_run. cbn zeta.
      repeat match goal with
      | |- context [if ?b then (Failure _, _) else _] =>
          destruct b; [apply Hproc; exact Hin |]
      end.
      cbn [snd]. unfold requested.
      change (contextAt (log ?e ?s') r) with (contextAt s' r).
      rewrite contextAt_set.
      destruct (decide (oracle_requestId env = r)) as [<- | Hne].
      * apply Hproc in Hin. unfold contextAt in Hin. rewrite Hfresh in Hin.
        discriminate.
      * apply Hproc. exact Hin.
  - rewrite myCallback_run.
    destruct (processed (contextAt s requestId)) eqn:Hdone; [split; assumption |].
    repeat match goal with
    | |- context [if ?b then (Failure _, _) else _] => destruct b; [split; assumption |]
    end.
    destruct (checkSignatures requestId cleartexts proof); [| split; assumption].
    destruct (negb (Z.of_nat (length cleartexts) =? 32)); [split; assumption |].
    cbn [snd].
    assert (Hnew : ~ In requestId (completedIds (events s))).
    { intros Hin. apply Hproc in Hin. congruence. }
    assert (Hids : completedIds (events (completed requestId cleartexts s))
                   = completedIds (events s) ++ [requestId]).
    { unfold completedIds, completed. cbn. rewrite omap_app. reflexivity. }
    split.
    + rewrite Hids. apply NoDup_app. split; [exact Hnodup |].
      split; [| constructor; [intros H; inversion H | constructor]].
      intros x Hx Hx'. apply list_elem_of_In in Hx.
      apply list_elem_of_In in Hx'. cbn in Hx'. destruct Hx' as [<- | []].
      contradiction.
    + intros r. rewrite Hids, in_app_iff. cbn. intros [Hin | [<- | []]].
      * unfold completed.
        change (contextAt (log ?e ?s') r) with (contextAt s' r).
        rewrite contextAt_set.
        destruct (decide (requestId = r)); [reflexivity | apply Hproc; exact Hin].
      * apply completed_processed.
Qed.

(** As long as the bridge never answers a validation request with an
    identifier already in use, the log of a reachable state holds at most
    one DecryptionCompleted per request, and every request it names is marked
    processed in storage. *)
Theorem completed_at_most_once {fhe : Platform} (s : State)
    (Hreach : reachableUnique s) :
  completedOnce s.
Proof.
  induction Hreach as [env s Hdep | env c s Hreach IH Hfresh].
  - rewrite deploy_result in Hdep. injection Hdep as <-.
    split; [constructor | intros r []].
  - apply completedOnce_transact; assumption.
Qed.

Lemma reachableUnique_sCompleted : reachableUnique (fhe := demoPlatform) sCompleted.
Proof.
  assert (H0 : reachableUnique (fhe := demoPlatform) sDeployed).
  { apply (reachableUnique_deploy (by_ alice 1000)).
    unfold sDeployed. rewrite deploy_result. reflexivity. }
  repeat (apply reachableUnique_transact; [| vm_compute; reflexivity || exact I]).
  exact H0.
Qed.

Lemma completed_at_most_once_witness :
  completedIds (events sCompleted) = [requestR] /\
  NoDup (completedIds (events sCompleted)) /\
  processed (contextAt sCompleted requestR) = true.
Proof.
  destruct (completed_at_most_once (fhe := demoPlatform) sCompleted
              reachableUnique_sCompleted) as [Hnodup Hproc].
  split; [reflexivity | split; [exact Hnodup |]].
  apply Hproc. vm_compute. tauto.
Defined.

Lemma context_step {fhe : Platform} (env : Env) (c : Call) (s : State)
    (r : uint256) (ctx : DecryptionContext) :
  decryptionContexts s !! r = Some ctx ->
  exists ctx',
    decryptionContexts (snd (transact env c s)) !! r = Some ctx' /\
    (keepsRequest r (env, c) ->
     batchId ctx' = batchId ctx /\ stateHash ctx' = stateHash ctx /\
     (processed ctx = true -> processed ctx' = true)).
Proof.
  intros Hctx.
  assert (Hsame : exists ctx', decryptionContexts s !! r = Some ctx' /\
            (keepsRequest r (env, c) ->
             batchId ctx' = batchId ctx /\ stateHash ctx' = stateHash ctx /\
             (processed ctx = true -> processed ctx' = true))).
  { exists ctx. split; [exact Hctx | intros _; repeat split; intros H; exact H]. }
  destruct c.
  1-8: rewrite contexts_frame by discriminate; exact Hsame.
  - rewrite requestBatchValidation_full_run. cbn zeta.
    repeat match goal with
    | |- context [if ?b then (Failure _, _) else _] => destruct b; [exact Hsame |]
    end.
    cbn [snd]. unfold requested. cbn.
    destruct (decide (oracle_requestId env = r)) as [Heq | Hne].
    + rewrite Heq, lookup_insert_eq. eexists. split; [reflexivity |].
      intros Hkeep. cbn in Hkeep. contradiction.
    + rewrite lookup_insert_ne by assumption. exact Hsame.
  - rewrite myCallback_run.
    repeat match goal with
    | |- context [if ?b then (Failure _, _) else _] => destruct b; [exact Hsame |]
    end.
    destruct (checkSignatures requestId cleartexts proof); [| exact Hsame].
    destruct (negb (Z.of_nat (length cleartexts) =? 32)); [exact Hsame |].
    cbn [snd]. unfold completed. cbn.
    destruct (decide (requestId = r)) as [-> | Hne].
    + rewrite lookup_insert_eq. eexists. split; [reflexivity |].
      intros _. unfold contextAt. rewrite Hctx. cbn. repeat split.
    + rewrite lookup_insert_ne by assumption. exact Hsame.
Qed.

(** A stored request is never deleted: whatever calls follow, a record stays
    stored under its identifier; and as long as the bridge does not hand the
    identifier to a new request, the record keeps its batch id and its hash,
    and stays processed once it is. *)
Theorem request_record_persists {fhe : Platform}
    (txs : list (Env * Call)) (s : State) (r : uint256) (ctx : DecryptionContext)
    (Hctx : decryptionContexts s !! r = Some ctx) :
  exists ctx',
    decryptionContexts (run txs s) !! r = Some ctx' /\
    (Forall (keepsRequest r) txs ->
     batchId ctx' = batchId ctx /\ stateHash ctx' = stateHash ctx /\
     (processed ctx = true -> processed ctx' = true)).
Proof.
  revert s ctx Hctx. induction txs as [| [env c] txs IH]; intros s ctx Hctx.
  - exists ctx. split; [exact Hctx | intros _; repeat split; intros H; exact H].
  - rewrite run_cons.
    destruct (context_step env c s r ctx Hctx) as (ctx1 & Hctx1 & Hkeep1).
    destruct (IH _ ctx1 Hctx1) as (ctx2 & Hctx2 & Hkeep2).
    exists ctx2. split; [exact Hctx2 |].
    intros Hall. inversion Hall as [| tx txs' Hhead Htail]; subst.
    destruct (Hkeep1 Hhead) as (Hb1 & Hh1 & Hp1).
    destruct (Hkeep2 Htail) as (Hb2 & Hh2 & Hp2).
    repeat split; [congruence | congruence | auto].
Qed.

Lemma request_record_persists_witness :
  exists ctx',
    decryptionContexts
      (run (fhe := demoPlatform)
         [(by_ alice 6000, CallCloseCurrentBatch);
          (by_ bob 6100, CallMyCallback requestR cleartext7 [x01])]
         sCompleted) !! requestR = Some ctx' /\
    batchId ctx' = 1 /\ processed ctx' = true.
Proof.
  destruct (request_record_persists (fhe := demoPlatform)
              [(by_ alice 6000, CallCloseCurrentBatch);
               (by_ bob 6100, CallMyCallback requestR cleartext7 [x01])]
              sCompleted requestR (mkDecryptionContext 1 127504 true) eq_refl)
    as (ctx' & Hctx' & Hkeep).
  exists ctx'. split; [exact Hctx' |].
  destruct Hkeep as (Hb & _ & Hp).
  - repeat constructor.
  - split; [exact Hb | apply Hp; reflexivity].
Defined.

(** Only a successful callback for a request sets its flag: if a request
    reads as unprocessed before a transaction and as processed after it, the
    transaction was [myCallback] for that very identifier, and it succeeded. *)
Theorem processed_only_by_callback {fhe : Platform}
    (env : Env) (c : Call) (s : State) (r : uint256)
    (Hbefore : processed (contextAt s r) = false)
    (Hafter : processed (contextAt (snd (transact env c s)) r) = true) :
  exists cleartexts proof,
    c = CallMyCallback r cleartexts proof /\
    transact env c s = (Success, completed r cleartexts s) /\
    checkSignatures r cleartexts proof = true /\
    length cleartexts = 32%nat.
Proof.
  destruct c.
  1-8: exfalso; unfold contextAt in Hafter;
       rewrite contexts_frame in Hafter by discriminate;
       unfold contextAt in Hbefore; congruence.
  - exfalso. revert Hafter. rewrite requestBatchValidation_full_run. cbn zeta.
    repeat match goal with
    | |- context [if ?b then (Failure _, _) else _] => destruct b; [cbn; intros; congruence |]
    end.
    cbn [snd]. unfold requested.
    change (contextAt (log ?e ?s') r) with (contextAt s' r).
    rewrite contextAt_set.
    destruct (decide (oracle_requestId env = r)); intros H;
      [discriminate H | change (processed (contextAt s r) = true) in H; congruence].
  - revert Hafter. rewrite myCallback_run.
    repeat match goal with
    | |- context [if ?b then (Failure _, _) else _] => destruct b; [cbn; intros; congruence |]
    end.
    destruct (checkSignatures requestId cleartexts proof) eqn:Hsig; [| cbn; intros; congruence].
    destruct (Z.eqb_spec (Z.of_nat (length cleartexts)) 32) as [Hlen | Hlen];
      cbn [negb]; [| cbn; intros; congruence].
    cbn [snd]. unfold completed at 1.
    change (contextAt (log ?e ?s') r) with (contextAt s' r).
    rewrite contextAt_set.
    destruct (decide (requestId = r)) as [-> | Hne]; [| intros; congruence].
    intros _. exists cleartexts, proof.
    repeat split; [exact Hsig | lia].
Qed.

Lemma processed_only_by_callback_witness :
  processed (contextAt sRequested requestR) = false /\
  processed (contextAt sCompleted requestR) = true /\
  exists cleartexts proof,
    CallMyCallback requestR cleartext7 [x01] = CallMyCallback requestR cleartexts proof /\
    checkSignatures (Platform := demoPlatform) requestR cleartexts proof = true.
Proof.
  split; [reflexivity | split; [reflexivity |]].
  destruct (processed_only_by_callback (fhe := demoPlatform) (by_ bob 5000)
              (CallMyCallback requestR cleartext7 [x01]) sRequested requestR
              eq_refl eq_refl) as (ct & pf & Hc & _ & Hsig & _).
  exists ct, pf. split; [exact Hc | exact Hsig].
Defined.

Lemma lastSubmissionTime_frame {fhe : Platform} (env : Env) (c : Call) (s : State) :
  (forall x, c <> CallSubmitAttestation x) ->
  lastSubmissionTime (snd (transact env c s)) = lastSubmissionTime s.
Proof.
  intros Hc. destruct c; try (exfalso; eapply Hc; reflexivity); clear Hc.
  all: sol_run; unfold checked_add, ret, revert; sol_cases; reflexivity.
Qed.

(** An address's last submission time moves only by its own successful
    submit, and then to the time of that call: no failed call, no call of
    another address and no other function changes it. *)
Theorem submission_time_moves_only_on_own_submit {fhe : Platform}
    (env : Env) (c : Call) (s : State) (a : address)
    (Hmoved : lastSubmissionTimeAt (snd (transact env c s)) a <> lastSubmissionTimeAt s a) :
  exists x,
    c = CallSubmitAttestation x /\
    msg_sender env = a /\
    transact env c s = (Success, submitted env x s) /\
    lastSubmissionTimeAt (snd (transact env c s)) a = block_timestamp env.
Proof.
  destruct c.
  1-7, 9-10: exfalso; apply Hmoved; unfold lastSubmissionTimeAt;
             rewrite lastSubmissionTime_frame by discriminate; reflexivity.
  revert Hmoved. rewrite submitAttestation_run. cbn zeta.
  repeat match goal with
  | |- context [if ?b then (Failure _, _) else _] =>
      destruct b; [intros H; exfalso; apply H; reflexivity |]
  end.
  cbn [snd]. rewrite lastSubmissionTimeAt_submitted.
  destruct (decide (msg_sender env = a)) as [Heq | Hne].
  - intros _. exists encryptedData. repeat split. exact Heq.
  - intros H. exfalso. apply H. reflexivity.
Qed.

Lemma submission_time_moves_only_on_own_submit_witness :
  lastSubmissionTimeAt sDeployed alice = 0 /\
  lastSubmissionTimeAt sSubmitted alice = 2000 /\
  exists x, CallSubmitAttestation 7 = CallSubmitAttestation x /\
            msg_sender (by_ alice 2000) = alice.
Proof.
  split; [reflexivity | split; [reflexivity |]].
  destruct (submission_time_moves_only_on_own_submit (fhe := demoPlatform)
              (by_ alice 2000) (CallSubmitAttestation 7) sDeployed alice)
    as (x & Hc & Hsender & _).
  - vm_compute. discriminate.
  - exists x. split; [exact Hc | exact Hsender].
Defined.
